(** * EmotionSense-AI voice service: a shallow embedding of the two Python scripts

    - [src/voice-service/huggingface_emotion.py]        (module [HuggingfaceEmotion])
    - [backend/src/voice-service/test_custom_model.py]  (module [TestCustomModel])

    Python values are embedded as Rocq data, [try]/[except] as an exception
    monad that also records what the script writes and which external
    services it calls.  The external collaborators (transformers, torch,
    librosa, tensorflow/keras, numpy, the file system) are oracles gathered
    in an environment record: every theorem quantifies over all of them. *)

From Stdlib Require Import ZArith Lia Floats DecimalString.
From stdpp Require Import base option list strings gmap.

Local Open Scope string_scope.
Local Open Scope list_scope.

(* ===================================================================== *)
(** * The fragment of the Python runtime the scripts rely on *)
(* ===================================================================== *)

Module Py.

(** ** Exceptions

    An exception is an instance of a subclass of [Exception]: its class name
    and the text [str(e)] gives.  Interpreter signals that are not
    [Exception]s (KeyboardInterrupt, SystemExit) are not failures of a
    collaborator and are left out. *)
Record exn : Type := mk_exn { exn_class : string; exn_str : string }.

(** [str(KeyError(k))] is the [repr] of the key: the key between quotes. *)
Definition KeyError (key : string) : exn := mk_exn "KeyError" ("'" +:+ key +:+ "'").
Definition IndexError (msg : string) : exn := mk_exn "IndexError" msg.
Definition TypeError (msg : string) : exn := mk_exn "TypeError" msg.
Definition ValueError (msg : string) : exn := mk_exn "ValueError" msg.

(** The outcome of a computation: it returns or it raises. *)
Inductive outcome (A : Type) : Type :=
  | Return (a : A)
  | Raise (e : exn).
Arguments Return {A} a.
Arguments Raise {A} e.

(** ** The monad: [E] is the type of the events a run leaves behind
    (lines written, external calls made), in the order they happened. *)
Definition M (E A : Type) : Type := list E * outcome A.

Definition ret {E A} (a : A) : M E A := ([], Return a).
Definition raise {E A} (e : exn) : M E A := ([], Raise e).
Definition emit {E} (ev : E) : M E unit := ([ev], Return tt).
Definition lift {E A} (o : outcome A) : M E A := ([], o).

Definition bind {E A B} (m : M E A) (k : A -> M E B) : M E B :=
  match m with
  | (tr, Return a) => let '(tr', o) := k a in (tr ++ tr', o)
  | (tr, Raise e) => (tr, Raise e)
  end.

(** [try: body except Exception as e: handler e] *)
Definition try_except {E A} (body : M E A) (handler : exn -> M E A) : M E A :=
  match body with
  | (tr, Return a) => (tr, Return a)
  | (tr, Raise e) => let '(tr', o) := handler e in (tr ++ tr', o)
  end.

Definition trace {E A} (m : M E A) : list E := fst m.
Definition result {E A} (m : M E A) : outcome A := snd m.

Module Notations.
  Notation "'let*' x := m 'in' k" := (bind m (fun x => k))
    (at level 10, x name, m at level 100, k at level 200).
  Notation "m ;; k" := (bind m (fun _ => k))
    (at level 100, k at level 200, right associativity).
End Notations.

(** ** [str(i)] of a non-negative [int] *)
Definition str_of_nat (n : nat) : string := NilZero.string_of_uint (Nat.to_uint n).

(** ** Floats

    A Python [float] is an IEEE 754 binary64: Rocq's primitive floats.  A
    float object also has an identity; [list.index] looks at it before it
    compares values, so objects carry it. *)
Record pyfloat : Type := mk_pyfloat { oid : nat; fval : float }.

(** [a > b] and [a == b] on float objects. *)
Definition py_gt (a b : pyfloat) : bool := (fval b <? fval a)%float.
Definition py_eq (a b : pyfloat) : bool := (fval a =? fval b)%float.

(** [PyObject_RichCompareBool(a, b, Py_EQ)], the comparison of [list.index]
    (and of [in], [count], [remove]): the same object, or equal values. *)
Definition py_same_or_eq (a b : pyfloat) : bool := Nat.eqb (oid a) (oid b) || py_eq a b.

(** [max(l)]: the first item, replaced by each later item that is [>] it.
    (The text of the [ValueError] is that of CPython up to 3.11.) *)
Fixpoint max_loop (cur : pyfloat) (l : list pyfloat) : pyfloat :=
  match l with
  | [] => cur
  | item :: rest => max_loop (if py_gt item cur then item else cur) rest
  end.

Definition py_max (l : list pyfloat) : outcome pyfloat :=
  match l with
  | [] => Raise (ValueError "max() arg is an empty sequence")
  | x :: rest => Return (max_loop x rest)
  end.

(** [l.index(x)]: the position of the first item that is [x] or equals it. *)
Fixpoint index_from (i : nat) (l : list pyfloat) (x : pyfloat) : outcome nat :=
  match l with
  | [] => Raise (ValueError "list.index(x): x not in list")
  | y :: rest => if py_same_or_eq y x then Return i else index_from (S i) rest x
  end.

Definition py_index (l : list pyfloat) (x : pyfloat) : outcome nat := index_from 0 l x.

(** The objects of [l] are told apart by their position: what [tolist]
    gives, a fresh object per entry. *)
Definition positioned (l : list pyfloat) : Prop :=
  forall i x, l !! i = Some x -> oid x = i.

(** A Python object that is a float or a list of floats. *)
Inductive pyobj : Type :=
  | PyFloat (x : pyfloat)
  | PyList (l : list pyfloat).

(** [len(o)], [o[i]] for [0 <= i], [max(o)], [o.index(x)] and [float(x)]. *)
Definition py_len (o : pyobj) : outcome nat :=
  match o with
  | PyList l => Return (length l)
  | PyFloat _ => Raise (TypeError "object of type 'float' has no len()")
  end.

Definition py_getitem (o : pyobj) (i : nat) : outcome pyfloat :=
  match o with
  | PyList l =>
      match l !! i with
      | Some x => Return x
      | None => Raise (IndexError "list index out of range")
      end
  | PyFloat _ => Raise (TypeError "'float' object is not subscriptable")
  end.

Definition py_max_of (o : pyobj) : outcome pyfloat :=
  match o with
  | PyList l => py_max l
  | PyFloat _ => Raise (TypeError "'float' object is not iterable")
  end.

Definition py_index_of (o : pyobj) (x : pyfloat) : outcome nat :=
  match o with
  | PyList l => py_index l x
  | PyFloat _ => Raise (mk_exn "AttributeError" "'float' object has no attribute 'index'")
  end.

(** [float(x)] of a float is [x] itself. *)
Definition py_float (x : pyfloat) : pyfloat := x.

(** [d[k]] on a dict with string keys. *)
Definition getitem {V} (d : gmap string V) (k : string) : outcome V :=
  match d !! k with
  | Some v => Return v
  | None => Raise (KeyError k)
  end.

End Py.

(* ===================================================================== *)
(** * huggingface_emotion.py *)
(* ===================================================================== *)

Module HuggingfaceEmotion.
Import Py Py.Notations.

(** Label mapping (lines 20-29). *)
Definition id2label : gmap string string :=
  {[ "0" := "angry"; "1" := "calm"; "2" := "disgust"; "3" := "fear";
     "4" := "happy"; "5" := "neutral"; "6" := "sad"; "7" := "surprise" ]}.

(** The values a result dict holds, and what the process writes:
    [print(..., file=sys.stderr)] and [print(json.dumps(result))]. *)
Inductive value : Type :=
  | VBool (b : bool)
  | VStr (s : string)
  | VFloat (f : float)
  | VScores (d : gmap string float).

Inductive event : Type :=
  | Stderr (text : string)
  | Stdout (json : gmap string value).

(** [torch.Tensor.squeeze().tolist()] of the softmax output.  One clip is
    passed, so the output has shape (1, n) and [row] is its single row.
    [squeeze] drops every axis of size 1: for n = 1 nothing is left and
    [tolist] gives a bare float, otherwise a list of n fresh float objects. *)
Definition squeeze_tolist (row : list float) : pyobj :=
  match row with
  | [x] => PyFloat (mk_pyfloat 0 x)
  | _ => PyList (imap mk_pyfloat row)
  end.

Section Classifier.

(** The collaborators: transformers, librosa and torch. *)
Context {Model Extractor Waveform Inputs : Type}.

Record Env : Type := {
  (** [Wav2Vec2ForSequenceClassification.from_pretrained(model_name)] *)
  model_from_pretrained : string -> outcome Model;
  (** [Wav2Vec2FeatureExtractor.from_pretrained(model_name)] *)
  extractor_from_pretrained : string -> outcome Extractor;
  (** [librosa.load(audio_path, sr=...)] *)
  librosa_load : string -> Z -> outcome (Waveform * Z);
  (** [processor(speech, sampling_rate=..., return_tensors="pt", padding=True)] *)
  processor_call : Extractor -> Waveform -> Z -> outcome Inputs;
  (** The forward pass of [model] on [inputs] under [torch.no_grad()], its
      [.logits], then [softmax(logits, dim=1)]: the row of the one clip. *)
  infer_softmax : Model -> Inputs -> outcome (list float);
}.

Variable env : Env.

(** Lines 59-62: [for i in range(len(probs))]. *)
Fixpoint scores_loop (probs : pyobj) (range : list nat) (scores : gmap string float)
  : M event (gmap string float) :=
  match range with
  | [] => ret scores
  | i :: rest =>
      let* emotion := lift (getitem id2label (str_of_nat i)) in
      let* p := lift (py_getitem probs i) in
      scores_loop probs rest (<[emotion := fval (py_float p)]> scores)
  end.

(** Lines 69-75 and 78-81 (also 96-99): the two dicts. *)
Definition success_result (dominant_emotion : string) (confidence : float)
    (scores : gmap string float) : gmap string value :=
  {[ "success" := VBool true;
     "emotion" := VStr dominant_emotion;
     "confidence" := VFloat confidence;
     "scores" := VScores scores;
     "model" := VStr "huggingface-prithiv" ]}.

Definition error_result (e : exn) : gmap string value :=
  {[ "success" := VBool false; "error" := VStr (exn_str e) ]}.

(** Lines 58-75: from the list of probabilities to the result dict. *)
Definition result_of_probs (probs : pyobj) : M event (gmap string value) :=
  let* n := lift (py_len probs) in
  let* scores := scores_loop probs (seq 0 n) ∅ in
  let* mx := lift (py_max_of probs) in
  let* dominant_idx := lift (py_index_of probs mx) in
  let* dominant_emotion := lift (getitem id2label (str_of_nat dominant_idx)) in
  let* confidence := lift (py_max_of probs) in
  ret (success_result dominant_emotion (fval (py_float confidence)) scores).

(** Lines 36-75: the body of the [try]. *)
Definition classify_audio_try (model_name audio_path : string) : M event (gmap string value) :=
  emit (Stderr ("Loading model: " +:+ model_name +:+ "...")) ;;
  let* model := lift (model_from_pretrained env model_name) in
  let* processor := lift (extractor_from_pretrained env model_name) in
  let* loaded := lift (librosa_load env audio_path 16000%Z) in
  let '(speech, sample_rate) := loaded in
  let* inputs := lift (processor_call env processor speech sample_rate) in
  let* row := lift (infer_softmax env model inputs) in
  result_of_probs (squeeze_tolist row).

(** Lines 31-81. *)
Definition classify_audio (model_name audio_path : string) : M event (gmap string value) :=
  try_except (classify_audio_try model_name audio_path)
             (fun e => ret (error_result e)).

(** [sys.argv[i]] *)
Definition argv_get (argv : list string) (i : nat) : outcome string :=
  match argv !! i with
  | Some a => Return a
  | None => Raise (IndexError "list index out of range")
  end.

(** Lines 83-100: the script run as a program. *)
Definition main (argv : list string) : M event unit :=
  try_except
    (let* model_name := lift (argv_get argv 1) in
     let* audio_path := lift (argv_get argv 2) in
     let* result := classify_audio model_name audio_path in
     emit (Stdout result))
    (fun e => emit (Stdout (error_result e))).

(** Lines 6-100: the script run as a process.  The imports of lines 15-17
    (transformers, torch, librosa) come first, outside every [try]; then
    the block of lines 83-100. *)
Definition script (imports : outcome unit) (argv : list string) : M event unit :=
  lift imports ;; main argv.

(** ** Reading a run *)

(** Loading, decoding and inference succeed and the softmax gives [row]. *)
Definition produces (model_name audio_path : string) (row : list float) : Prop :=
  exists model processor speech sample_rate inputs,
    model_from_pretrained env model_name = Return model /\
    extractor_from_pretrained env model_name = Return processor /\
    librosa_load env audio_path 16000%Z = Return (speech, sample_rate) /\
    processor_call env processor speech sample_rate = Return inputs /\
    infer_softmax env model inputs = Return row.

(** Loading, decoding or inference raises [e]: the first stage that fails. *)
Definition fails_with (model_name audio_path : string) (e : exn) : Prop :=
  model_from_pretrained env model_name = Raise e \/
  exists model, model_from_pretrained env model_name = Return model /\
  (extractor_from_pretrained env model_name = Raise e \/
   exists processor, extractor_from_pretrained env model_name = Return processor /\
   (librosa_load env audio_path 16000%Z = Raise e \/
    exists speech sample_rate,
      librosa_load env audio_path 16000%Z = Return (speech, sample_rate) /\
    (processor_call env processor speech sample_rate = Raise e \/
     exists inputs, processor_call env processor speech sample_rate = Return inputs /\
     infer_softmax env model inputs = Raise e))).

End Classifier.

Arguments Env : clear implicits.

(** The one line a call writes on standard error (line 37). *)
Definition loading_line (model_name : string) : event :=
  Stderr ("Loading model: " +:+ model_name +:+ "...").

(** What a run wrote on standard output. *)
Definition stdout (tr : list event) : list (gmap string value) :=
  omap (fun ev => match ev with Stdout d => Some d | Stderr _ => None end) tr.

(** The ordered label table: position [i] of the probability vector. *)
Definition labels : list string :=
  ["angry"; "calm"; "disgust"; "fear"; "happy"; "neutral"; "sad"; "surprise"].

(** The shape of a Classification Result: a failure has [error] and none of
    [emotion], [confidence], [scores]; a success has these three and no
    [error]. *)
Definition is_failure (d : gmap string value) : Prop :=
  d !! "success" = Some (VBool false) /\
  (exists msg, d !! "error" = Some (VStr msg)) /\
  d !! "emotion" = None /\ d !! "confidence" = None /\ d !! "scores" = None.

Definition is_success (d : gmap string value) : Prop :=
  d !! "success" = Some (VBool true) /\
  (exists label, d !! "emotion" = Some (VStr label)) /\
  (exists p, d !! "confidence" = Some (VFloat p)) /\
  (exists scores, d !! "scores" = Some (VScores scores)) /\
  d !! "error" = None.

Definition well_formed (d : gmap string value) : Prop := is_failure d \/ is_success d.

(** ** Concrete environments: every stage succeeds and the softmax gives
    [row]; or one stage raises. *)
Definition env_giving (row : list float) : Env unit unit unit unit :=
  {| model_from_pretrained := fun _ => Return tt;
     extractor_from_pretrained := fun _ => Return tt;
     librosa_load := fun _ sr => Return (tt, sr);
     processor_call := fun _ _ _ => Return tt;
     infer_softmax := fun _ _ => Return row |}.

Definition env_unreachable_hub (e : exn) : Env unit unit unit unit :=
  {| model_from_pretrained := fun _ => Raise e;
     extractor_from_pretrained := fun _ => Return tt;
     librosa_load := fun _ sr => Return (tt, sr);
     processor_call := fun _ _ _ => Return tt;
     infer_softmax := fun _ _ => Return [] |}.

Definition env_undecodable (e : exn) : Env unit unit unit unit :=
  {| model_from_pretrained := fun _ => Return tt;
     extractor_from_pretrained := fun _ => Return tt;
     librosa_load := fun _ _ => Raise e;
     processor_call := fun _ _ _ => Return tt;
     infer_softmax := fun _ _ => Return [] |}.

(** The binary64 values nearest to 0.1 and 0.05; 0.5 is exact. *)
Definition f0_1 : float := 0x1.999999999999ap-4%float.
Definition f0_05 : float := 0x1.999999999999ap-5%float.
Definition f0_5 : float := 0x1p-1%float.

(** The vector of the spec's example. *)
Definition example_row : list float :=
  [f0_1; f0_05; f0_05; f0_1; f0_5; f0_1; f0_05; f0_05].

(** The [scores] of the example. *)
Definition example_scores : gmap string float :=
  {[ "angry" := f0_1; "calm" := f0_05; "disgust" := f0_05; "fear" := f0_1;
     "happy" := f0_5; "neutral" := f0_1; "sad" := f0_05; "surprise" := f0_05 ]}.

(** A three-way head. *)
Definition three_way_row : list float := [0.5; 0.25; 0.25]%float.

(** A failure whose message is empty, as [audioread.NoBackendError()] is
    raised by [librosa.load] on a file no decoder reads. *)
Definition no_backend : exn := mk_exn "NoBackendError" "".

(** [torch] is not installed. *)
Definition no_torch : exn := mk_exn "ModuleNotFoundError" "No module named 'torch'".

(** The hub does not resolve the identifier. *)
Definition hub_unreachable : exn :=
  mk_exn "OSError" "We couldn't connect to 'https://huggingface.co' to load this file".

End HuggingfaceEmotion.

(* ===================================================================== *)
(** * test_custom_model.py *)
(* ===================================================================== *)

Module TestCustomModel.
Import Py Py.Notations.

(** ** [CompatibleAttention] (lines 39-103)

    The part of [keras.layers.Layer] the class builds on: a layer keeps the
    weights [add_weight] created, and [build] marks it built.  [call] is
    tensor algebra on floats and is not embedded. *)
Record weight : Type := {
  w_name : string;
  w_shape : list nat;
  w_trainable : bool;
  w_value : float;   (** the initial value of a scalar weight *)
}.

Record CompatibleAttention : Type := {
  use_scale : bool;
  score_mode : string;
  supports_masking : bool;
  scale : option weight;
  weights : list weight;
  built : bool;
}.

(** Keras initializers by name, at a scalar shape. *)
Definition initializer_value (initializer : string) : outcome float :=
  if String.eqb initializer "ones" then Return 1%float
  else if String.eqb initializer "zeros" then Return 0%float
  else Raise (ValueError ("Could not interpret initializer identifier: " +:+ initializer)).

(** [Layer.add_weight(name=, shape=, initializer=, trainable=)] *)
Definition add_weight (self : CompatibleAttention) (name : string) (shape : list nat)
    (initializer : string) (trainable : bool) : outcome (weight * CompatibleAttention) :=
  match initializer_value initializer with
  | Raise e => Raise e
  | Return v =>
      let w := {| w_name := name; w_shape := shape; w_trainable := trainable; w_value := v |} in
      Return (w, {| use_scale := use_scale self; score_mode := score_mode self;
                    supports_masking := supports_masking self; scale := scale self;
                    weights := weights self ++ [w]; built := built self |})
  end.

(** [Layer.build(input_shape)] *)
Definition Layer_build (self : CompatibleAttention) (input_shape : list (option nat))
  : CompatibleAttention :=
  {| use_scale := use_scale self; score_mode := score_mode self;
     supports_masking := supports_masking self; scale := scale self;
     weights := weights self; built := true |}.

(** [Layer.trainable_weights] *)
Definition trainable_weights (self : CompatibleAttention) : list weight :=
  filter (fun w => w_trainable w = true) (weights self).

(** [__init__(self, use_scale=False, score_mode='dot', **kwargs)] (lines 44-48) *)
Definition init (use_scale : bool) (score_mode : string) : CompatibleAttention :=
  {| use_scale := use_scale; score_mode := score_mode; supports_masking := true;
     scale := None; weights := []; built := false |}.

(** [build(self, input_shape)] (lines 50-59) *)
Definition build (self : CompatibleAttention) (input_shape : list (option nat))
  : outcome CompatibleAttention :=
  if use_scale self then
    match add_weight self "scale" [] "ones" true with
    | Raise e => Raise e
    | Return (w, self') =>
        Return (Layer_build
                  {| use_scale := use_scale self'; score_mode := score_mode self';
                     supports_masking := supports_masking self'; scale := Some w;
                     weights := weights self'; built := built self' |}
                  input_shape)
    end
  else Return (Layer_build self input_shape).

(** ** [test_model] (lines 13-168) *)

(** The classes a load can be given as [custom_objects]. *)
Inductive custom_class : Type := CompatibleAttentionClass.

Inductive method : Type :=
  | DirectCall     (** [model(dummy_input, training=False).numpy()] *)
  | PredictCall.   (** [model.predict(dummy_input, verbose=0)] *)

Definition shape : Type := list nat.

(** The calls to the outside, as the run makes them. *)
Inductive call : Type :=
  | ImportTensorflow
  | PathExists (path : string)
  | GetSize (path : string)
  | ImportKeras
  | LoadModel (path : string) (custom_objects : list (string * custom_class))
  | Summary
  | Randn (s : shape)
  | Invoke (m : method) (s : shape)
  | PrintExc.

(** The lines [print] writes, one constructor per statement, each with the
    values its f-string interpolates. *)
Inductive line : Type :=
  | L_title                              (** line 15 *)
  | L_rule                               (** lines 16, 162 (after an empty line) *)
  | L_checking_tensorflow                (** line 19 *)
  | L_tensorflow_version (v : string)    (** line 21 *)
  | L_checking_model_file                (** line 24 *)
  | L_model_file_found (path : string)   (** line 27 *)
  | L_file_size (bytes : N)              (** line 29: bytes / (1024 * 1024) *)
  | L_model_file_not_found (path : string)            (** line 31 *)
  | L_attempting_load                    (** line 35 *)
  | L_loaded_with_wrapper                (** line 111 *)
  | L_custom_load_failed (e : string)    (** line 113 *)
  | L_trying_standard                    (** line 114 *)
  | L_loaded_standard                    (** line 117 *)
  | L_standard_load_failed (e2 : string) (** line 119 *)
  | L_architecture                       (** line 123 *)
  | L_testing_dummy                      (** line 127 *)
  | L_testing_shape (s : shape)          (** line 135 *)
  | L_succeeded (m : method) (s : shape) (** lines 142, 152 *)
  | L_output_shape (text : string)       (** lines 143, 153 *)
  | L_output_sample (text : string)      (** lines 144, 154 *)
  | L_failed (m : method) (e : string)   (** lines 147, 157 *)
  | L_testing_failed (e : string)        (** line 160 *)
  | L_completed                          (** line 163 *)
  | L_test_failed (e : string).          (** line 166 *)

Inductive event : Type :=
  | Out (l : line)
  | Ext (c : call).

Definition print (l : line) : M event unit := emit (Out l).

(** An external call: recorded, then its outcome. *)
Definition ext {A} (c : call) (o : outcome A) : M event A := emit (Ext c) ;; lift o.

(** [break] or the end of the loop body. *)
Inductive signal : Type := Break | Continue.

Definition model_path : string := "./src/models/emotion_bilstm_final.h5".

(** Line 108: [custom_objects={'Attention': CompatibleAttention}]. *)
Abbreviation attention_substitution := [("Attention", CompatibleAttentionClass)].

(** Lines 129-132: (batch, mfcc, time) and (batch, time, mfcc). *)
Definition shape_mfcc_time : shape := [1; 40; 174].
Definition shape_time_mfcc : shape := [1; 174; 40].
Definition test_shapes : list shape := [shape_mfcc_time; shape_time_mfcc].

Section Prober.

(** The collaborators: tensorflow/keras, numpy and the file system. *)
Context {Model Tensor Output : Type}.

Record Env : Type := {
  (** [import tensorflow as tf]; [tf.__version__] *)
  import_tensorflow : outcome string;
  (** [os.path.exists(path)] and, for an existing path, [os.path.getsize(path)] *)
  path_exists : string -> bool;
  getsize : string -> N;
  (** [from tensorflow import keras], [from tensorflow.keras.layers import Layer] *)
  import_keras : outcome unit;
  (** [keras.models.load_model(path, custom_objects=..., compile=False)] *)
  load_model : string -> list (string * custom_class) -> outcome Model;
  (** [model.summary()] *)
  summary : Model -> outcome unit;
  (** [np.random.randn( *shape ).astype(np.float32)] *)
  randn : shape -> outcome Tensor;
  (** [model(x, training=False).numpy()] and [model.predict(x, verbose=0)] *)
  invoke : method -> Model -> Tensor -> outcome Output;
  (** [predictions.shape] and [predictions[0][:5]], formatted *)
  output_shape : Output -> outcome string;
  output_sample : Output -> outcome string;
}.

Variable env : Env.

(** Lines 141-145 for [DirectCall], 151-155 for [PredictCall]: the body of
    the inner [try], up to its [break]. *)
Definition attempt_try (m : method) (model : Model) (s : shape) (dummy_input : Tensor)
  : M event signal :=
  let* predictions := ext (Invoke m s) (invoke env m model dummy_input) in
  print (L_succeeded m s) ;;
  let* sh := lift (output_shape env predictions) in
  print (L_output_shape sh) ;;
  let* sample := lift (output_sample env predictions) in
  print (L_output_sample sample) ;;
  ret Break.

(** Lines 140-147 and 150-157: the inner [try] with its handler. *)
Definition attempt (m : method) (model : Model) (s : shape) (dummy_input : Tensor)
  : M event signal :=
  try_except (attempt_try m model s dummy_input)
             (fun e => print (L_failed m (exn_str e)) ;; ret Continue).

(** Lines 134-160: [for i, shape in enumerate(test_shapes)]. *)
Fixpoint probe_loop (model : Model) (shapes : list shape) : M event unit :=
  match shapes with
  | [] => ret tt
  | s :: rest =>
      print (L_testing_shape s) ;;
      let* sig :=
        try_except
          (let* dummy_input := ext (Randn s) (randn env s) in
           let* sig1 := attempt DirectCall model s dummy_input in
           match sig1 with
           | Break => ret Break
           | Continue => attempt PredictCall model s dummy_input
           end)
          (fun e => print (L_testing_failed (exn_str e)) ;; ret Continue) in
      match sig with
      | Break => ret tt
      | Continue => probe_loop model rest
      end
  end.

(** Lines 105-120: the loaded model, or [None] where the code returns. *)
Definition load : M event (option Model) :=
  try_except
    (let* model := ext (LoadModel model_path attention_substitution)
                       (load_model env model_path attention_substitution) in
     print L_loaded_with_wrapper ;;
     ret (Some model))
    (fun e =>
       print (L_custom_load_failed (exn_str e)) ;;
       print L_trying_standard ;;
       try_except
         (let* model := ext (LoadModel model_path []) (load_model env model_path []) in
          print L_loaded_standard ;;
          ret (Some model))
         (fun e2 => print (L_standard_load_failed (exn_str e2)) ;; ret None)).

(** Lines 13-168. *)
Definition test_model : M event unit :=
  try_except
    (print L_title ;;
     print L_rule ;;
     print L_checking_tensorflow ;;
     let* version := ext ImportTensorflow (import_tensorflow env) in
     print (L_tensorflow_version version) ;;
     print L_checking_model_file ;;
     let* found := ext (PathExists model_path) (Return (path_exists env model_path)) in
     if found : bool then
       print (L_model_file_found model_path) ;;
       let* file_size := ext (GetSize model_path) (Return (getsize env model_path)) in
       print (L_file_size file_size) ;;
       print L_attempting_load ;;
       ext ImportKeras (import_keras env) ;;
       let* loaded := load in
       match loaded with
       | None => ret tt
       | Some model =>
           print L_architecture ;;
           ext Summary (summary env model) ;;
           print L_testing_dummy ;;
           probe_loop model test_shapes ;;
           print L_rule ;;
           print L_completed
       end
     else
       print (L_model_file_not_found model_path) ;;
       ret tt)
    (fun e => print (L_test_failed (exn_str e)) ;; ext PrintExc (Return tt)).

(** ** Reading a run *)

(** The combination [(s, m)] succeeds on [model]: a synthetic input of shape
    [s] is produced and the [try] of method [m] runs to its [break]. *)
Definition combination_succeeds (model : Model) (c : shape * method) : bool :=
  match randn env c.1 with
  | Return dummy_input =>
      match result (attempt_try c.2 model c.1 dummy_input) with
      | Return _ => true
      | Raise _ => false
      end
  | Raise _ => false
  end.

(** The combinations of a list of shapes for which an input is produced. *)
Definition candidates (shapes : list shape) : list (shape * method) :=
  flat_map (fun s => match randn env s with
                     | Return _ => [(s, DirectCall); (s, PredictCall)]
                     | Raise _ => []
                     end) shapes.

(** The combination [(s, m)] fails with [e]: the body of its [try] raises [e]. *)
Definition combination_fails (model : Model) (c : shape * method) (e : exn) : Prop :=
  exists dummy_input,
    randn env c.1 = Return dummy_input /\
    result (attempt_try c.2 model c.1 dummy_input) = Raise e.

(** The run reaches the load: tensorflow and keras import and the file exists. *)
Definition reaches_load (version : string) : Prop :=
  import_tensorflow env = Return version /\
  path_exists env model_path = true /\
  import_keras env = Return tt.

(** The run reaches the probe with [model]: moreover a load gives [model]
    and its summary prints. *)
Definition reaches_probe (version : string) (model : Model) : Prop :=
  reaches_load version /\
  result load = Return (Some model) /\
  summary env model = Return tt.

(** The events of a run up to the existence check, and from there to the load. *)
Definition before_check (version : string) : list event :=
  [Out L_title; Out L_rule; Out L_checking_tensorflow; Ext ImportTensorflow;
   Out (L_tensorflow_version version); Out L_checking_model_file;
   Ext (PathExists model_path)].

Definition before_load (version : string) : list event :=
  before_check version ++
  [Out (L_model_file_found model_path);
   Ext (GetSize model_path); Out (L_file_size (getsize env model_path));
   Out L_attempting_load; Ext ImportKeras].

End Prober.

Arguments Env : clear implicits.

(** The (shape, method) combinations a run invoked, in order. *)
Definition attempts (tr : list event) : list (shape * method) :=
  omap (fun ev => match ev with Ext (Invoke m s) => Some (s, m) | _ => None end) tr.

(** The loads a run attempted, in order: the [custom_objects] of each. *)
Definition loads (tr : list event) : list (list (string * custom_class)) :=
  omap (fun ev => match ev with Ext (LoadModel _ co) => Some co | _ => None end) tr.

(** The lines a run printed, in order. *)
Definition printed (tr : list event) : list line :=
  omap (fun ev => match ev with Out l => Some l | Ext _ => None end) tr.

(** The failure reports among the printed lines: each shape announced and
    each failed attempt with its error. *)
Definition is_report_line (l : line) : bool :=
  match l with
  | L_testing_shape _ | L_failed _ _ | L_testing_failed _ => true
  | _ => false
  end.

Definition failure_report (tr : list event) : list line :=
  List.filter is_report_line (printed tr).

(** The fixed priority order of the probe. *)
Definition probe_order : list (shape * method) :=
  [(shape_mfcc_time, DirectCall); (shape_mfcc_time, PredictCall);
   (shape_time_mfcc, DirectCall); (shape_time_mfcc, PredictCall)].

(** ** Concrete environments

    A model is the list of [custom_objects] it was loaded with, a tensor is
    its shape, an output is the method that produced it. *)
Definition shape_mismatch : exn :=
  ValueError "Input 0 of layer is incompatible with the layer".

Definition bad_config : exn := TypeError "Could not deserialize class Attention".

Definition unknown_layer : exn := ValueError "Unknown layer: Attention".

Definition no_tensorflow : exn :=
  mk_exn "ModuleNotFoundError" "No module named 'tensorflow'".

(** An artifact that loads with the substitution and accepts the
    combinations [accepts] says. *)
Definition env_accepting (accepts : shape -> method -> bool)
  : Env (list (string * custom_class)) shape method :=
  {| import_tensorflow := Return "2.15.0";
     path_exists := fun _ => true;
     getsize := fun _ => 1048576%N;
     import_keras := Return tt;
     load_model := fun _ custom_objects => Return custom_objects;
     summary := fun _ => Return tt;
     randn := fun s => Return s;
     invoke := fun m _ s => if accepts s m then Return m else Raise shape_mismatch;
     output_shape := fun _ => Return "(1, 8)";
     output_sample := fun _ => Return "[0.1 0.1 0.2 0.1 0.5]" |}.

(** Shape (1,174,40), and only through [predict]. *)
Definition only_time_mfcc_predict (s : shape) (m : method) : bool :=
  match m with
  | PredictCall => bool_decide (s = shape_time_mfcc)
  | DirectCall => false
  end.

(** An artifact that neither load can read. *)
Definition env_unloadable : Env (list (string * custom_class)) shape method :=
  {| import_tensorflow := Return "2.15.0";
     path_exists := fun _ => true;
     getsize := fun _ => 1048576%N;
     import_keras := Return tt;
     load_model := fun _ custom_objects =>
       match custom_objects with
       | [] => Raise unknown_layer
       | _ => Raise bad_config
       end;
     summary := fun _ => Return tt;
     randn := fun s => Return s;
     invoke := fun m _ _ => Return m;
     output_shape := fun _ => Return "(1, 8)";
     output_sample := fun _ => Return "[0.1 0.1 0.2 0.1 0.5]" |}.

(** No artifact at the path; tensorflow installed, or not. *)
Definition env_missing (tensorflow : outcome string)
  : Env (list (string * custom_class)) shape method :=
  {| import_tensorflow := tensorflow;
     path_exists := fun _ => false;
     getsize := fun _ => 0%N;
     import_keras := Return tt;
     load_model := fun _ custom_objects => Return custom_objects;
     summary := fun _ => Return tt;
     randn := fun s => Return s;
     invoke := fun m _ _ => Return m;
     output_shape := fun _ => Return "(1, 8)";
     output_sample := fun _ => Return "[0.1 0.1 0.2 0.1 0.5]" |}.

(** The prefix of [l] that ends with its first element satisfying [p]
    (all of [l] when there is none). *)
Fixpoint through_first {A} (p : A -> bool) (l : list A) : list A :=
  match l with
  | [] => []
  | x :: rest => if p x then [x] else x :: through_first p rest
  end.

End TestCustomModel.

(* ===================================================================== *)
(** * test_custom_model.py: the rest of [CompatibleAttention] *)
(* ===================================================================== *)

Module AttentionLayer.
Import Py TestCustomModel.

(** ** [get_config] (lines 97-103) and the way back

    A config is a dict from string keys to JSON-like values.  What
    [super().get_config()] gives (the name, [trainable], the dtype) is Keras's
    and is an argument. *)
Inductive cfg : Type :=
  | CBool (b : bool)
  | CStr (s : string)
  | CNone.

Definition get_config (base_config : gmap string cfg) (self : CompatibleAttention)
  : gmap string cfg :=
  <["score_mode" := CStr (score_mode self)]>
    (<["use_scale" := CBool (use_scale self)]> base_config).

(** The keyword arguments that a call of the class on an unpacked config
    hands on to [Layer.__init__]: those [__init__] does not name. *)
Definition init_kwargs (config : gmap string cfg) : gmap string cfg :=
  delete "score_mode" (delete "use_scale" config).

(** [Layer.from_config(config)]: the class called on the unpacked config,
    as keyword arguments bind to the parameters [use_scale=False] and
    [score_mode='dot'] of [__init__].  Line 45 comes first: [Layer.__init__]
    is handed the other keyword arguments and raises on one it does not
    understand; which ones it understands, and the error it raises, are
    Keras's and differ between its versions, so [layer_init] is an
    argument ([None]: accepted).  Where the call returns, [None] stands for
    a config that gives [use_scale] something that is no bool or
    [score_mode] something that is no string: the record does not hold such
    a layer. *)
Definition from_config (layer_init : gmap string cfg -> option exn)
    (config : gmap string cfg) : outcome (option CompatibleAttention) :=
  match layer_init (init_kwargs config) with
  | Some e => Raise e
  | None =>
      Return
        match config !! "use_scale", config !! "score_mode" with
        | (None | Some (CBool _)) as u, (None | Some (CStr _)) as s =>
            Some (init (match u with Some (CBool b) => b | _ => false end)
                       (match s with Some (CStr m) => m | _ => "dot" end))
        | _, _ => None
        end
  end.

(** The [Layer.__init__] of Keras 2: [name], [trainable], [dtype] and
    [dynamic] are parameters, a few more keywords are allowed, and any
    other is a [TypeError]. *)
Definition keras2_keywords : list string :=
  ["name"; "trainable"; "dtype"; "dynamic"; "input_dim"; "input_shape";
   "batch_input_shape"; "batch_size"; "weights"; "activity_regularizer";
   "autocast"; "implementation"].

Definition keras2_layer_init (kwargs : gmap string cfg) : option exn :=
  if bool_decide (map_Forall (fun k _ => k ∈ keras2_keywords) kwargs) then None
  else Some (TypeError "Keyword argument not understood").

(** What [super().get_config()] gives for a layer named "attention". *)
Definition base_config_example : gmap string cfg :=
  {[ "name" := CStr "attention"; "trainable" := CBool true; "dtype" := CStr "float32" ]}.

(** ** [call] (lines 61-92), on the shapes of the tensors

    The entries are float32 arithmetic of TensorFlow and are not embedded;
    the shape of every intermediate tensor is, with the shape rules of the
    operations [call] uses. *)
Definition InvalidArgumentError (msg : string) : exn := mk_exn "InvalidArgumentError" msg.
Definition AttributeError (msg : string) : exn := mk_exn "AttributeError" msg.

(** Broadcasting of two lists of batch dimensions, innermost first. *)
Fixpoint broadcast_rev (a b : list nat) : option (list nat) :=
  match a, b with
  | [], _ => Some b
  | _, [] => Some a
  | x :: a', y :: b' =>
      if Nat.eqb x y then cons x <$> broadcast_rev a' b'
      else if Nat.eqb x 1 then cons y <$> broadcast_rev a' b'
      else if Nat.eqb y 1 then cons x <$> broadcast_rev a' b'
      else None
  end.

Definition broadcast (a b : list nat) : option (list nat) :=
  reverse <$> broadcast_rev (reverse a) (reverse b).

(** A shape of rank 2 or more: its batch dimensions, rows and columns. *)
Definition as_matrices (s : shape) : option (list nat * nat * nat) :=
  match reverse s with
  | cols :: rows :: batch_rev => Some (reverse batch_rev, rows, cols)
  | _ => None
  end.

(** [tf.matmul(a, b, transpose_b=...)] *)
Definition tf_matmul (a b : shape) (transpose_b : bool) : outcome shape :=
  match as_matrices a, as_matrices b with
  | Some (batch_a, m, k), Some (batch_b, p, q) =>
      let '(k', n) := if transpose_b then (q, p) else (p, q) in
      if Nat.eqb k k' then
        match broadcast batch_a batch_b with
        | Some batch => Return (batch ++ [m; n])
        | None => Raise (InvalidArgumentError "Incompatible shapes")
        end
      else Raise (InvalidArgumentError "Matrix size-incompatible")
  | _, _ => Raise (InvalidArgumentError "In[0] and In[1] ndims must be >= 2")
  end.

(** [tf.shape(t)[-1]] *)
Definition last_dim (t : shape) : outcome nat :=
  match last t with
  | Some d => Return d
  | None => Raise (InvalidArgumentError "slice index -1 of dimension 0 out of bounds")
  end.

(** [t / c] and [t * c] for a scalar [c], and [tf.nn.softmax(t, axis=-1)]
    keep the shape of [t]; softmax needs an axis to work on. *)
Definition scalar_op (t : shape) : shape := t.

Definition tf_softmax_last (t : shape) : outcome shape :=
  match t with
  | [] => Raise (InvalidArgumentError "softmax needs a tensor of rank 1 or more")
  | _ => Return t
  end.

(** What [call] is given: a tensor, or a list of tensors. *)
Inductive call_inputs : Type :=
  | Single (t : shape)
  | Listed (ts : list shape).

Definition list_get (ts : list shape) (i : nat) : outcome shape :=
  match ts !! i with
  | Some t => Return t
  | None => Raise (IndexError "list index out of range")
  end.

Definition outcome_bind {A B} (o : outcome A) (k : A -> outcome B) : outcome B :=
  match o with
  | Return a => k a
  | Raise e => Raise e
  end.

Notation "'let+' x := o 'in' k" := (outcome_bind o (fun x => k))
  (at level 10, x name, o at level 100, k at level 200).

Definition call (self : CompatibleAttention) (inputs : call_inputs) : outcome shape :=
  let+ qv :=
    match inputs with
    | Listed ts =>
        let+ query := list_get ts 0 in
        let+ value := list_get ts 1 in
        Return (query, value)
    | Single t => Return (t, t)
    end in
  let query := qv.1 in
  let value := qv.2 in
  let+ scores := tf_matmul query value true in
  let+ d_k := last_dim query in
  let scores := scalar_op scores in
  let+ scores :=
    if use_scale self then
      match scale self with
      | Some _ => Return (scalar_op scores)
      | None => Raise (AttributeError "'CompatibleAttention' object has no attribute 'scale'")
      end
    else Return scores in
  let+ attention_weights := tf_softmax_last scores in
  tf_matmul attention_weights value false.

End AttentionLayer.

(* ===================================================================== *)
(** * More concrete environments *)
(* ===================================================================== *)

Module Scenarios.
Import Py HuggingfaceEmotion TestCustomModel.

(** A softmax row whose first entry is a NaN. *)
Definition nan_first_row : list float := [nan; 0.5; 0.25]%float.

Definition memory_error : exn := mk_exn "MemoryError" "Unable to allocate array".

Definition summary_error : exn := ValueError "This model has not yet been built".

Definition keras_import_error : exn :=
  mk_exn "ImportError" "cannot import name 'keras' from 'tensorflow'".

Definition scalar_output : exn := IndexError "invalid index to scalar variable.".

(** An artifact that loads; no input is produced for (1,40,174). *)
Definition env_no_first_input : TestCustomModel.Env (list (string * custom_class)) shape method :=
  {| import_tensorflow := Return "2.15.0";
     path_exists := fun _ => true;
     getsize := fun _ => 1048576%N;
     import_keras := Return tt;
     load_model := fun _ custom_objects => Return custom_objects;
     summary := fun _ => Return tt;
     randn := fun s => if bool_decide (s = shape_mfcc_time) then Raise memory_error
                       else Return s;
     invoke := fun m _ _ => Return m;
     output_shape := fun _ => Return "(1, 8)";
     output_sample := fun _ => Return "[0.1 0.1 0.2 0.1 0.5]" |}.

(** An artifact that loads, whose summary or whose keras import raises. *)
Definition env_stage_failure (keras : outcome unit) (summary_outcome : outcome unit)
  : TestCustomModel.Env (list (string * custom_class)) shape method :=
  {| import_tensorflow := Return "2.15.0";
     path_exists := fun _ => true;
     getsize := fun _ => 1048576%N;
     import_keras := keras;
     load_model := fun _ custom_objects => Return custom_objects;
     summary := fun _ => summary_outcome;
     randn := fun s => Return s;
     invoke := fun m _ _ => Return m;
     output_shape := fun _ => Return "(1, 8)";
     output_sample := fun _ => Return "[0.1 0.1 0.2 0.1 0.5]" |}.

(** An artifact whose direct call returns a vector: its first entry is a
    scalar, which cannot be sliced; [predict] returns a matrix. *)
Definition env_scalar_rows : TestCustomModel.Env (list (string * custom_class)) shape method :=
  {| import_tensorflow := Return "2.15.0";
     path_exists := fun _ => true;
     getsize := fun _ => 1048576%N;
     import_keras := Return tt;
     load_model := fun _ custom_objects => Return custom_objects;
     summary := fun _ => Return tt;
     randn := fun s => Return s;
     invoke := fun m _ _ => Return m;
     output_shape := fun m => Return (match m with DirectCall => "(8,)" | PredictCall => "(1, 8)" end);
     output_sample := fun m => match m with
                               | DirectCall => Raise scalar_output
                               | PredictCall => Return "[0.1 0.1 0.2 0.1 0.5]"
                               end |}.

End Scenarios.

(* ===================================================================== *)
(** * Facts about the runtime fragment *)
(* ===================================================================== *)

Module PyFacts.
Import Py Py.Notations.

Section Monad.
Context {E A B : Type}.

Lemma trace_bind (m : M E A) (k : A -> M E B) :
  trace (bind m k) =
  trace m ++ match result m with Return a => trace (k a) | Raise _ => [] end.
Proof.
  destruct m as [tr [a|e]]; cbn.
  - destruct (k a); reflexivity.
  - symmetry; apply app_nil_r.
Qed.

Lemma result_bind (m : M E A) (k : A -> M E B) :
  result (bind m k) =
  match result m with Return a => result (k a) | Raise e => Raise e end.
Proof.
  destruct m as [tr [a|e]]; cbn; [destruct (k a)|]; reflexivity.
Qed.

Lemma trace_try_except (body : M E A) (handler : exn -> M E A) :
  trace (try_except body handler) =
  trace body ++ match result body with Return _ => [] | Raise e => trace (handler e) end.
Proof.
  destruct body as [tr [a|e]]; cbn.
  - symmetry; apply app_nil_r.
  - destruct (handler e); reflexivity.
Qed.

Lemma result_try_except (body : M E A) (handler : exn -> M E A) :
  result (try_except body handler) =
  match result body with Return a => Return a | Raise e => result (handler e) end.
Proof.
  destruct body as [tr [a|e]]; cbn; [|destruct (handler e)]; reflexivity.
Qed.

End Monad.

Lemma M_eta {E A} (m : M E A) : m = (trace m, result m).
Proof. destruct m; reflexivity. Qed.

Lemma bind_lift_return {E A B} (a : A) (k : A -> M E B) :
  bind (lift (Return a)) k = k a.
Proof. unfold bind, lift. destruct (k a). reflexivity. Qed.

Lemma bind_emit {E B} (ev : E) (k : unit -> M E B) :
  bind (emit ev) k = (ev :: trace (k tt), result (k tt)).
Proof. unfold bind, emit. destruct (k tt). reflexivity. Qed.

(** ** The order of binary64 values, from the IEEE 754 specification of
    the comparison ([SFcompare]) *)

Ltac sf_cases a := destruct a as [[]|[]| |[] ? ?].

Ltac cmp_cases :=
  repeat match goal with
  | |- context [Z.compare ?a ?b] => destruct (Z.compare_spec a b)
  | |- context [Pos.compare ?a ?b] => destruct (Pos.compare_spec a b)
  | H : context [Z.compare ?a ?b] |- _ => destruct (Z.compare_spec a b)
  | H : context [Pos.compare ?a ?b] |- _ => destruct (Pos.compare_spec a b)
  end.

Ltac sf_order :=
  cbn; try discriminate; auto; try congruence;
  change (Pos.compare_cont Eq ?x ?y) with (Pos.compare x y);
  intros; cmp_cases; cbn in *; subst; auto; try congruence; try lia.

Lemma SFcompare_lt_trans (a b c : spec_float) :
  SFcompare a b = Some Lt -> SFcompare b c = Some Lt -> SFcompare a c = Some Lt.
Proof. sf_cases a; sf_cases b; sf_cases c; sf_order. Qed.

Lemma SFcompare_lt_eq (a b c : spec_float) :
  SFcompare a b = Some Lt -> SFcompare c b = Some Eq -> SFcompare a c = Some Lt.
Proof. sf_cases a; sf_cases b; sf_cases c; sf_order. Qed.

Lemma SFcompare_lt_irrefl (a : spec_float) : SFcompare a a <> Some Lt.
Proof.
  sf_cases a; cbn; try discriminate;
    change (Pos.compare_cont Eq ?x ?y) with (Pos.compare x y);
    rewrite Z.compare_refl, Pos.compare_refl; discriminate.
Qed.

Lemma SFcompare_total (a b : spec_float) :
  SFcompare a a = Some Eq -> SFcompare b b = Some Eq ->
  SFcompare a b <> Some Lt -> SFcompare b a = Some Lt \/ SFcompare b a = Some Eq.
Proof. sf_cases a; sf_cases b; sf_order. Qed.

Lemma SFcompare_lt_not_eq (a b : spec_float) :
  SFcompare a b <> Some Eq -> SFcompare a a = Some Eq -> SFcompare b b = Some Eq ->
  SFcompare a b <> Some Lt -> SFcompare b a = Some Lt.
Proof. sf_cases a; sf_cases b; sf_order. Qed.

Lemma SFcompare_eq_sym (a b : spec_float) :
  SFcompare a b = Some Eq -> SFcompare b a = Some Eq.
Proof. sf_cases a; sf_cases b; sf_order. Qed.

Section Floats.
Local Open Scope float_scope.
Implicit Types a b c : float.

Lemma ltb_true a b : (a <? b) = true <-> SFcompare (Prim2SF a) (Prim2SF b) = Some Lt.
Proof.
  rewrite FloatAxioms.ltb_spec. unfold SFltb.
  destruct (SFcompare _ _) as [[]|]; split; congruence.
Qed.

Lemma eqb_true a b : (a =? b) = true <-> SFcompare (Prim2SF a) (Prim2SF b) = Some Eq.
Proof.
  rewrite FloatAxioms.eqb_spec. unfold SFeqb.
  destruct (SFcompare _ _) as [[]|]; split; congruence.
Qed.

Lemma leb_true a b :
  (a <=? b) = true <->
  SFcompare (Prim2SF a) (Prim2SF b) = Some Lt \/ SFcompare (Prim2SF a) (Prim2SF b) = Some Eq.
Proof.
  rewrite FloatAxioms.leb_spec. unfold SFleb.
  destruct (SFcompare _ _) as [[]|]; split; intros; auto; try congruence;
    destruct H; congruence.
Qed.

Lemma not_nan a : is_nan a = false <-> SFcompare (Prim2SF a) (Prim2SF a) = Some Eq.
Proof.
  unfold is_nan. rewrite <- eqb_true. destruct (a =? a); cbn; split; congruence.
Qed.

Lemma ltb_irrefl a : (a <? a) = false.
Proof.
  destruct (a <? a) eqn:H; [|reflexivity].
  apply ltb_true in H. now apply SFcompare_lt_irrefl in H.
Qed.

Lemma ltb_trans a b c : (a <? b) = true -> (b <? c) = true -> (a <? c) = true.
Proof. rewrite !ltb_true. apply SFcompare_lt_trans. Qed.

Lemma ltb_eqb a b c : (a <? b) = true -> (c =? b) = true -> (a <? c) = true.
Proof. rewrite !ltb_true, eqb_true. apply SFcompare_lt_eq. Qed.

(** Among numbers the order is total. *)
Lemma not_ltb_leb a b :
  is_nan a = false -> is_nan b = false -> (a <? b) = false -> (b <=? a) = true.
Proof.
  rewrite !not_nan, leb_true. intros Ha Hb Hlt.
  apply SFcompare_total; trivial.
  intros H. apply ltb_true in H. congruence.
Qed.

Lemma eqb_sym a b : (a =? b) = (b =? a).
Proof.
  destruct (a =? b) eqn:H1, (b =? a) eqn:H2; trivial.
  - apply eqb_true, SFcompare_eq_sym, eqb_true in H1. congruence.
  - apply eqb_true, SFcompare_eq_sym, eqb_true in H2. congruence.
Qed.

Lemma not_ltb_not_eqb_ltb a b :
  is_nan a = false -> is_nan b = false ->
  (a <? b) = false -> (a =? b) = false -> (b <? a) = true.
Proof.
  rewrite !not_nan, ltb_true. intros Ha Hb Hlt Heq.
  apply SFcompare_lt_not_eq; trivial.
  - intros H. apply eqb_true in H. congruence.
  - intros H. apply ltb_true in H. congruence.
Qed.

End Floats.

(** ** [max] and [list.index] *)

Lemma positioned_imap (row : list float) : positioned (imap mk_pyfloat row).
Proof.
  intros i x. rewrite list_lookup_imap.
  destruct (row !! i); cbn; [intros [= <-]; reflexivity | discriminate].
Qed.

(** The loop of [max] keeps, over the items seen so far ([seen]), the first
    item that none of them is greater than. *)
Lemma max_loop_spec (rest seen : list pyfloat) (cur : pyfloat) :
  positioned (seen ++ rest) ->
  seen !! oid cur = Some cur ->
  (forall y, y ∈ seen -> py_gt y cur = false) ->
  (forall j y, seen !! j = Some y -> j < oid cur -> py_eq y cur = false) ->
  let m := max_loop cur rest in
  (seen ++ rest) !! oid m = Some m /\
  (forall y, y ∈ seen ++ rest -> py_gt y m = false) /\
  (forall j y, (seen ++ rest) !! j = Some y -> j < oid m -> py_eq y m = false).
Proof.
  revert seen cur. induction rest as [|item rest IH]; intros seen cur Hpos Hcur Hgt Hfirst.
  { cbv zeta. cbn. rewrite app_nil_r. auto. }
  cbv zeta in *. cbn [max_loop].
  assert (Hitem : (seen ++ [item]) !! length seen = Some item).
  { rewrite lookup_app_r by lia. now rewrite Nat.sub_diag. }
  assert (Hid : oid item = length seen).
  { apply Hpos. rewrite lookup_app_r by lia. now rewrite Nat.sub_diag. }
  assert (Hlt : oid cur < length seen) by (eapply lookup_lt_Some; eauto).
  specialize (IH (seen ++ [item]) (if py_gt item cur then item else cur)).
  rewrite <- !app_assoc in IH. cbn [app] in IH. apply IH; clear IH; trivial.
  - destruct (py_gt item cur); [now rewrite Hid|].
    rewrite lookup_app_l; trivial.
  - intros y Hy. apply elem_of_app in Hy as [Hy|Hy%list_elem_of_singleton].
    + destruct (py_gt item cur) eqn:Hic; [|auto].
      destruct (py_gt y item) eqn:Hyi; [|reflexivity].
      unfold py_gt in *. rewrite <- (Hgt y Hy). symmetry. eapply ltb_trans; eauto.
    + subst y. destruct (py_gt item cur) eqn:Hic; [|exact Hic].
      unfold py_gt. apply ltb_irrefl.
  - intros j y Hj Hlt'. destruct (py_gt item cur) eqn:Hic.
    + rewrite Hid in Hlt'. rewrite lookup_app_l in Hj by trivial.
      destruct (py_eq y item) eqn:Hyi; [|reflexivity].
      unfold py_gt, py_eq in *.
      assert (Hy : y ∈ seen) by (apply list_elem_of_lookup; eauto).
      rewrite <- (Hgt y Hy). symmetry. eapply ltb_eqb; eauto.
    + apply (Hfirst j); trivial. rewrite lookup_app_l in Hj by lia. exact Hj.
Qed.

(** [max(l)] of a non-empty list [l] of distinct objects is the object [m]
    at the first position whose value nothing in [l] exceeds. *)
Lemma py_max_spec (l : list pyfloat) :
  positioned l -> l <> [] ->
  exists m, py_max l = Return m /\
    l !! oid m = Some m /\
    (forall y, y ∈ l -> py_gt y m = false) /\
    (forall j y, l !! j = Some y -> j < oid m -> py_eq y m = false).
Proof.
  intros Hpos Hne. destruct l as [|x rest]; [congruence|].
  exists (max_loop x rest). split; [reflexivity|].
  assert (Hx : oid x = 0) by now apply Hpos.
  apply (max_loop_spec rest [x] x); trivial.
  - now rewrite Hx.
  - intros y ->%list_elem_of_singleton. unfold py_gt. apply ltb_irrefl.
  - intros j y _ Hj. lia.
Qed.

Lemma index_from_spec (l : list pyfloat) (x : pyfloat) (i k : nat) :
  (exists y, l !! k = Some y /\ py_same_or_eq y x = true) ->
  (forall j y, l !! j = Some y -> j < k -> py_same_or_eq y x = false) ->
  index_from i l x = Return (i + k).
Proof.
  revert i k. induction l as [|z l IH]; intros i k (y & Hk & Hy) Hbefore.
  { discriminate. }
  cbn [index_from]. destruct k as [|k].
  - cbn in Hk. injection Hk as ->. rewrite Hy. f_equal. lia.
  - rewrite (Hbefore 0 z) by (trivial; lia).
    rewrite (IH (S i) k); [f_equal; lia | eauto |].
    intros j y' Hj Hlt. apply (Hbefore (S j)); [exact Hj | lia].
Qed.

(** [l.index(max(l))] is the position of that object. *)
Lemma py_index_max (l : list pyfloat) (m : pyfloat) :
  positioned l ->
  l !! oid m = Some m ->
  (forall j y, l !! j = Some y -> j < oid m -> py_eq y m = false) ->
  py_index l m = Return (oid m).
Proof.
  intros Hpos Hm Hfirst. unfold py_index.
  apply (index_from_spec l m 0 (oid m)).
  - exists m. split; trivial. unfold py_same_or_eq. now rewrite Nat.eqb_refl.
  - intros j y Hj Hlt. unfold py_same_or_eq.
    rewrite (Hfirst j y Hj Hlt), (Hpos j y Hj).
    apply orb_false_iff. split; [apply Nat.eqb_neq; lia | reflexivity].
Qed.

End PyFacts.


(* ===================================================================== *)
(** * huggingface_emotion.py *)
(* ===================================================================== *)

Module HuggingfaceEmotionProofs.
Import Py Py.Notations PyFacts HuggingfaceEmotion.

(** ** The label table *)

Lemma id2label_labels (i : nat) : i <= 8 -> id2label !! str_of_nat i = labels !! i.
Proof.
  intros Hi. do 9 (destruct i as [|i]; [vm_compute; reflexivity|]). lia.
Qed.

Lemma getitem_label (i : nat) (label : string) :
  labels !! i = Some label -> getitem id2label (str_of_nat i) = Return label.
Proof.
  intros Hl. unfold getitem. rewrite id2label_labels, Hl; [reflexivity|].
  apply lookup_lt_Some in Hl. cbn in Hl. lia.
Qed.

Lemma getitem_8 : getitem id2label (str_of_nat 8) = Raise (KeyError "8").
Proof. unfold getitem. now rewrite id2label_labels. Qed.

Lemma labels_NoDup : NoDup labels.
Proof. apply (bool_decide_unpack _). vm_compute. exact I. Qed.

Lemma labels_inj (i j : nat) (label : string) :
  labels !! i = Some label -> labels !! j = Some label -> i = j.
Proof. apply NoDup_lookup, labels_NoDup. Qed.

(** ** The loop that fills [scores] *)

Lemma scores_loop_spec (l : list pyfloat) (k i : nat) (acc : gmap string float) :
  i + k <= 8 -> i + k <= length l ->
  exists sc,
    scores_loop (PyList l) (seq i k) acc = ([], Return sc) /\
    forall label q,
      sc !! label = Some q <->
      (exists j x, i <= j < i + k /\ labels !! j = Some label /\
                   l !! j = Some x /\ q = fval x) \/
      ((forall j, i <= j < i + k -> labels !! j <> Some label) /\ acc !! label = Some q).
Proof.
  revert i acc. induction k as [|k IH]; intros i acc H8 Hlen.
  { exists acc. split; [reflexivity|]. intros label q. split.
    - intros H. right. split; [intros; lia | exact H].
    - intros [(j & x & Hj & _)|[_ H]]; [lia | exact H]. }
  destruct (lookup_lt_is_Some_2 labels i) as [li Hli]; [cbn; lia|].
  destruct (lookup_lt_is_Some_2 l i) as [x Hx]; [lia|].
  destruct (IH (S i) (<[li := fval x]> acc)) as (sc & Hrun & Hsc); [lia..|].
  exists sc. split.
  { cbn [seq scores_loop]. rewrite (getitem_label _ _ Hli), bind_lift_return.
    cbn [py_getitem]. rewrite Hx, bind_lift_return. exact Hrun. }
  intros label q. rewrite Hsc, lookup_insert_Some. split.
  - intros [(j & y & Hj & Hlj & Hy & ->)|[Hnone [[-> <-]|[Hne Hacc]]]].
    + left. exists j, y. repeat split; trivial; lia.
    + left. exists i, x. repeat split; trivial; lia.
    + right. split; [|exact Hacc]. intros j Hj Hlj.
      destruct (decide (j = i)) as [->|]; [congruence|].
      apply (Hnone j); [lia | exact Hlj].
  - intros [(j & y & Hj & Hlj & Hy & ->)|[Hnone Hacc]].
    + destruct (decide (j = i)) as [->|].
      * right. split.
        { intros j' Hj' Hlj'. pose proof (labels_inj _ _ _ Hlj Hlj'). lia. }
        left. split; congruence.
      * left. exists j, y. repeat split; trivial; lia.
    + right. split; [intros j Hj; apply Hnone; lia|].
      right. split; [|exact Hacc]. intros ->. apply (Hnone i); [lia | exact Hli].
Qed.

(** With nine entries or more the loop reaches index 8, which is no key. *)
Lemma scores_loop_key_error (l : list pyfloat) (k i : nat) (acc : gmap string float) :
  i <= 8 -> 9 <= i + k -> i + k <= length l ->
  scores_loop (PyList l) (seq i k) acc = ([], Raise (KeyError "8")).
Proof.
  revert i acc. induction k as [|k IH]; intros i acc Hi H9 Hlen; [lia|].
  cbn [seq scores_loop].
  destruct (decide (i = 8)) as [->|Hne].
  { now rewrite getitem_8. }
  destruct (lookup_lt_is_Some_2 labels i) as [li Hli]; [cbn; lia|].
  destruct (lookup_lt_is_Some_2 l i) as [x Hx]; [lia|].
  rewrite (getitem_label _ _ Hli), bind_lift_return.
  cbn [py_getitem]. rewrite Hx, bind_lift_return.
  apply IH; lia.
Qed.

(** ** From the probabilities to the result *)

(** A list of one to eight probabilities gives a success: the label and the
    value at the first position [k] whose value none exceeds, and a [scores]
    that maps the label of each position to its value. *)
Lemma result_of_probs_list (row : list float) :
  row <> [] -> length row <= 8 ->
  exists k p label sc,
    result_of_probs (PyList (imap mk_pyfloat row))
      = ([], Return (success_result label p sc)) /\
    row !! k = Some p /\ labels !! k = Some label /\
    (forall j q, row !! j = Some q -> (p <? q)%float = false) /\
    (forall j q, row !! j = Some q -> j < k -> (q =? p)%float = false) /\
    (forall label' q, sc !! label' = Some q <->
                      exists j, labels !! j = Some label' /\ row !! j = Some q).
Proof.
  intros Hne H8. set (l := imap mk_pyfloat row).
  assert (Hlen : length l = length row) by apply length_imap.
  assert (Hl : forall j, l !! j = mk_pyfloat j <$> row !! j)
    by (intros j; apply list_lookup_imap).
  destruct (py_max_spec l (positioned_imap row)) as (m & Hmax & Hm & Hgt & Hfirst).
  { intros H. apply (f_equal length) in H. rewrite Hlen in H.
    destruct row; [congruence | discriminate]. }
  pose proof (py_index_max l m (positioned_imap row) Hm Hfirst) as Hidx.
  destruct (scores_loop_spec l (length l) 0 ∅) as (sc & Hsc & Hlook); [lia..|].
  assert (Hk : oid m < length row) by (rewrite <- Hlen; eapply lookup_lt_Some; eauto).
  destruct (lookup_lt_is_Some_2 labels (oid m)) as [label Hlabel]; [cbn; lia|].
  exists (oid m), (fval m), label, sc.
  split; [|split; [|split; [|split; [|split]]]].
  - unfold result_of_probs. cbn [py_len py_max_of py_index_of].
    rewrite bind_lift_return.
    rewrite (M_eta (bind _ _)), trace_bind, result_bind, Hsc. cbn [trace result fst snd app].
    rewrite Hmax, bind_lift_return, Hidx, bind_lift_return.
    rewrite (getitem_label _ _ Hlabel), !bind_lift_return. reflexivity.
  - rewrite Hl in Hm. destruct (row !! oid m) as [p|]; [|discriminate].
    cbn in Hm. injection Hm as <-. reflexivity.
  - exact Hlabel.
  - intros j q Hj.
    apply (Hgt (mk_pyfloat j q)). apply list_elem_of_lookup. exists j.
    now rewrite Hl, Hj.
  - intros j q Hj Hlt.
    apply (Hfirst j (mk_pyfloat j q)); [now rewrite Hl, Hj | exact Hlt].
  - intros label' q. rewrite Hlook. split.
    + intros [(j & x & _ & Hlj & Hx & ->)|[_ Hempty]]; [|now rewrite lookup_empty in Hempty].
      exists j. split; [exact Hlj|]. rewrite Hl in Hx.
      destruct (row !! j); [|discriminate]. cbn in Hx. now injection Hx as <-.
    + intros (j & Hlj & Hj). left. exists j, (mk_pyfloat j q).
      repeat split; trivial; [lia | | now rewrite Hl, Hj].
      rewrite Hlen. eapply lookup_lt_Some; eauto.
Qed.

(** The two dicts have the two shapes. *)
Lemma error_result_is_failure (e : exn) : is_failure (error_result e).
Proof. repeat split; try reflexivity. now exists (exn_str e). Qed.

Lemma success_result_is_success (label : string) (p : float) (sc : gmap string float) :
  is_success (success_result label p sc).
Proof. repeat split; try reflexivity; eexists; reflexivity. Qed.

Lemma error_result_not_success (e : exn) :
  error_result e !! "success" <> Some (VBool true).
Proof. discriminate. Qed.

Lemma success_result_not_failure (label : string) (p : float) (sc : gmap string float) :
  success_result label p sc !! "success" <> Some (VBool false).
Proof. discriminate. Qed.

Section Classifier.
Context {Model Extractor Waveform Inputs : Type}.
Variable env : Env Model Extractor Waveform Inputs.
Implicit Types (model_name audio_path : string) (row : list float).

(** Nothing is written while the result is built. *)
Lemma scores_loop_silent (probs : pyobj) (range : list nat) (acc : gmap string float) :
  trace (scores_loop probs range acc) = [].
Proof.
  revert acc. induction range as [|i rest IH]; intros acc; [reflexivity|].
  cbn [scores_loop]. rewrite !trace_bind. cbn [lift trace result fst snd app].
  destruct (getitem id2label (str_of_nat i)); [|reflexivity].
  rewrite trace_bind. cbn [lift trace result fst snd app].
  destruct (py_getitem probs i); [apply IH | reflexivity].
Qed.

Lemma result_of_probs_silent (probs : pyobj) : trace (result_of_probs probs) = [].
Proof.
  unfold result_of_probs. rewrite trace_bind. cbn [lift trace result fst snd app].
  destruct (py_len probs) as [n|]; [|reflexivity].
  rewrite trace_bind, scores_loop_silent. cbn [app].
  destruct (result (scores_loop probs (seq 0 n) ∅)); [|reflexivity].
  rewrite trace_bind. cbn [lift trace result fst snd app].
  destruct (py_max_of probs) as [mx|]; [|reflexivity].
  rewrite trace_bind. cbn [lift trace result fst snd app].
  destruct (py_index_of probs mx) as [k|]; [|reflexivity].
  rewrite trace_bind. cbn [lift trace result fst snd app].
  destruct (getitem id2label (str_of_nat k)); reflexivity.
Qed.

(** [classify_audio] when every stage succeeds. *)
Lemma classify_audio_produces model_name audio_path row :
  produces env model_name audio_path row ->
  classify_audio env model_name audio_path =
    ([loading_line model_name],
     match result (result_of_probs (squeeze_tolist row)) with
     | Return d => Return d
     | Raise e => Return (error_result e)
     end).
Proof.
  intros (model & processor & speech & sr & inputs & H1 & H2 & H3 & H4 & H5).
  unfold classify_audio, classify_audio_try. rewrite bind_emit.
  rewrite H1, bind_lift_return, H2, bind_lift_return, H3, bind_lift_return.
  rewrite H4, bind_lift_return, H5, bind_lift_return.
  rewrite result_of_probs_silent. fold (loading_line model_name).
  destruct (result (result_of_probs (squeeze_tolist row))); reflexivity.
Qed.

(** [classify_audio] when a stage raises. *)
Lemma classify_audio_fails_with model_name audio_path (e : exn) :
  fails_with env model_name audio_path e ->
  result (classify_audio_try env model_name audio_path) = Raise e /\
  classify_audio env model_name audio_path
    = ([loading_line model_name], Return (error_result e)).
Proof.
  intros Hf.
  assert (Htry : classify_audio_try env model_name audio_path
                 = ([loading_line model_name], Raise e)).
  { unfold classify_audio_try. rewrite bind_emit. fold (loading_line model_name).
    destruct Hf as [H1|(model & H1 & [H2|(processor & H2 & [H3|(speech & sr & H3 &
                      [H4|(inputs & H4 & H5)])])])].
    - now rewrite H1.
    - now rewrite H1, bind_lift_return, H2.
    - now rewrite H1, bind_lift_return, H2, bind_lift_return, H3.
    - now rewrite H1, bind_lift_return, H2, bind_lift_return, H3, bind_lift_return, H4.
    - now rewrite H1, bind_lift_return, H2, bind_lift_return, H3, bind_lift_return,
        H4, bind_lift_return, H5. }
  split; [now rewrite Htry|]. unfold classify_audio. now rewrite Htry.
Qed.

(** A stage raises, or all succeed. *)
Lemma fails_or_produces model_name audio_path :
  (exists e, fails_with env model_name audio_path e) \/
  (exists row, produces env model_name audio_path row).
Proof.
  unfold fails_with, produces.
  destruct (model_from_pretrained env model_name) as [model|e] eqn:H1; [|eauto].
  destruct (extractor_from_pretrained env model_name) as [processor|e] eqn:H2;
    [|left; exists e; right; eauto].
  destruct (librosa_load env audio_path 16000%Z) as [[speech sr]|e] eqn:H3;
    [|left; exists e; right; exists model; split; trivial; right; eauto].
  destruct (processor_call env processor speech sr) as [inputs|e] eqn:H4;
    [|left; exists e; right; exists model; split; trivial; right;
      exists processor; split; trivial; right; eauto 6].
  destruct (infer_softmax env model inputs) as [row|e] eqn:H5.
  - right. exists row, model, processor, speech, sr, inputs. auto.
  - left. exists e. right. exists model. split; trivial. right.
    exists processor. split; trivial. right. exists speech, sr. split; trivial.
    right. eauto.
Qed.

(** The result for each length of the softmax row. *)
Lemma classify_audio_by_length model_name audio_path row :
  produces env model_name audio_path row ->
  let r := result (classify_audio env model_name audio_path) in
  (row = [] ->
   r = Return (error_result (ValueError "max() arg is an empty sequence"))) /\
  (length row = 1 ->
   r = Return (error_result (TypeError "object of type 'float' has no len()"))) /\
  (2 <= length row <= 8 ->
   exists k p label sc,
     r = Return (success_result label p sc) /\
     row !! k = Some p /\ labels !! k = Some label /\
     (forall j q, row !! j = Some q -> (p <? q)%float = false) /\
     (forall j q, row !! j = Some q -> j < k -> (q =? p)%float = false) /\
     (forall label' q, sc !! label' = Some q <->
                       exists j, labels !! j = Some label' /\ row !! j = Some q)) /\
  (9 <= length row -> r = Return (error_result (KeyError "8"))).
Proof.
  intros Hp r. subst r. rewrite (classify_audio_produces _ _ _ Hp). cbn [result snd].
  split; [|split; [|split]].
  - intros ->. reflexivity.
  - intros H1. destruct row as [|x []]; try discriminate. reflexivity.
  - intros [H2 H8].
    destruct (result_of_probs_list row) as (k & p & label & sc & Hrun & Hfacts);
      [destruct row; [cbn in H2; lia | discriminate] | exact H8 |].
    exists k, p, label, sc. split; [|exact Hfacts].
    replace (squeeze_tolist row) with (PyList (imap mk_pyfloat row))
      by (destruct row as [|? [|? ?]]; try reflexivity; cbn in H2; lia).
    now rewrite Hrun.
  - intros H9.
    replace (squeeze_tolist row) with (PyList (imap mk_pyfloat row))
      by (destruct row as [|? [|? ?]]; try reflexivity; cbn in H9; lia).
    unfold result_of_probs. cbn [py_len]. rewrite bind_lift_return.
    rewrite scores_loop_key_error; [reflexivity | lia | |];
      rewrite length_imap; lia.
Qed.

(** [classify_audio] returns a dict, of one of the two shapes, and writes
    one line, on standard error. *)
Lemma classify_audio_total model_name audio_path :
  exists d,
    classify_audio env model_name audio_path = ([loading_line model_name], Return d) /\
    ((exists e, d = error_result e) \/ (exists label p sc, d = success_result label p sc)).
Proof.
  destruct (fails_or_produces model_name audio_path) as [[e Hf]|[row Hp]].
  - exists (error_result e). split; [apply (classify_audio_fails_with _ _ _ Hf) | eauto].
  - rewrite (classify_audio_produces _ _ _ Hp).
    destruct (classify_audio_by_length _ _ _ Hp) as (H0 & H1 & H2 & H9).
    rewrite (classify_audio_produces _ _ _ Hp) in H0, H1, H2, H9. cbn [result snd] in *.
    destruct (decide (length row = 0)) as [Hz|];
      [apply nil_length_inv in Hz; rewrite (H0 Hz); eauto|].
    destruct (decide (length row = 1)) as [Ho|]; [rewrite (H1 Ho); eauto|].
    destruct (decide (length row <= 8)) as [H8|].
    + destruct H2 as (k & p & label & sc & -> & _); [lia|]. eauto 7.
    + rewrite H9 by lia. eauto.
Qed.

(** The script run as a program. *)
Lemma main_spec (argv : list string) :
  match argv !! 1, argv !! 2 with
  | Some model_name, Some audio_path =>
      exists d, result (classify_audio env model_name audio_path) = Return d /\
                main env argv = ([loading_line model_name; Stdout d], Return tt)
  | _, _ =>
      main env argv =
        ([Stdout (error_result (IndexError "list index out of range"))], Return tt)
  end.
Proof.
  unfold main, argv_get.
  destruct (argv !! 1) as [model_name|]; [|reflexivity].
  destruct (argv !! 2) as [audio_path|]; [|reflexivity].
  destruct (classify_audio_total model_name audio_path) as (d & Hrun & _).
  exists d. rewrite !bind_lift_return, Hrun. split; reflexivity.
Qed.

(** C1 (amended). [classify_audio] never raises: it returns a dict. When
    the body of its [try] raises [e], and so when loading, decoding or
    inference raises [e], the dict is the failure result whose [error] is
    the text of [e] (empty when the exception has no message). Once its
    imports have succeeded, the process too returns and has written a
    result of the result shape on standard output, also on a fault outside
    [classify_audio]: with fewer than two arguments that result is the
    failure result of the [IndexError]. When an import raises, nothing is
    written and the exception leaves the process. *)
Theorem failures_become_error_results model_name audio_path :
  (exists d, result (classify_audio env model_name audio_path) = Return d) /\
  (forall e, result (classify_audio_try env model_name audio_path) = Raise e ->
     result (classify_audio env model_name audio_path) = Return (error_result e)) /\
  (forall e, fails_with env model_name audio_path e ->
     result (classify_audio env model_name audio_path) = Return (error_result e) /\
     error_result e !! "success" = Some (VBool false) /\
     error_result e !! "error" = Some (VStr (exn_str e))) /\
  (forall argv,
     result (script env (Return tt) argv) = Return tt /\
     exists d, stdout (trace (script env (Return tt) argv)) = [d] /\ well_formed d) /\
  (forall argv, length argv < 3 ->
     stdout (trace (script env (Return tt) argv)) =
       [error_result (IndexError "list index out of range")]) /\
  (forall e argv, script env (Raise e) argv = ([], Raise e)).
Proof.
  assert (Hscript : forall argv, script env (Return tt) argv = main env argv)
    by (intros argv; exact (bind_lift_return tt (fun _ => main env argv))).
  split; [|split; [|split; [|split; [|split]]]]; [| | | | |reflexivity];
    rewrite ?Hscript; try setoid_rewrite Hscript.
  - destruct (classify_audio_total model_name audio_path) as (d & -> & _). eauto.
  - intros e He. unfold classify_audio. rewrite result_try_except, He. reflexivity.
  - intros e Hf. destruct (classify_audio_fails_with _ _ _ Hf) as [_ ->].
    repeat split.
  - intros argv. pose proof (main_spec argv) as Hm.
    destruct (argv !! 1) as [mn|]; [destruct (argv !! 2) as [ap|]|].
    + destruct Hm as (d & Hd & ->). split; [reflexivity|]. exists d.
      split; [reflexivity|].
      destruct (classify_audio_total mn ap) as (d' & Hrun & Hshape).
      rewrite Hrun in Hd. injection Hd as <-.
      destruct Hshape as [[e ->]|(label & p & sc & ->)];
        [left; apply error_result_is_failure | right; apply success_result_is_success].
    + rewrite Hm. split; [reflexivity|]. eexists. split; [reflexivity|].
      left. apply error_result_is_failure.
    + rewrite Hm. split; [reflexivity|]. eexists. split; [reflexivity|].
      left. apply error_result_is_failure.
  - intros argv Hlen. pose proof (main_spec argv) as Hm.
    destruct (argv !! 1) as [mn|] eqn:H1; [destruct (argv !! 2) as [ap|] eqn:H2|].
    + apply lookup_lt_Some in H2. lia.
    + now rewrite Hm.
    + now rewrite Hm.
Qed.

(** C3. [classify_audio] returns a dict of the result shape: where
    [success] is false, [error] is present and [emotion], [confidence] and
    [scores] are absent; where [success] is true, [emotion], [confidence] and
    [scores] are present and [error] is absent; and [success] is one of the
    two. *)
Theorem classify_audio_result_shape model_name audio_path :
  exists d,
    result (classify_audio env model_name audio_path) = Return d /\
    (exists b, d !! "success" = Some (VBool b)) /\
    (d !! "success" = Some (VBool false) ->
       d !! "emotion" = None /\ d !! "confidence" = None /\ d !! "scores" = None /\
       exists msg, d !! "error" = Some (VStr msg)) /\
    (d !! "success" = Some (VBool true) ->
       (exists label, d !! "emotion" = Some (VStr label)) /\
       (exists p, d !! "confidence" = Some (VFloat p)) /\
       (exists scores, d !! "scores" = Some (VScores scores)) /\
       d !! "error" = None).
Proof.
  destruct (classify_audio_total model_name audio_path) as (d & Hrun & Hshape).
  exists d. rewrite Hrun. split; [reflexivity|].
  destruct Hshape as [[e ->]|(label & p & sc & ->)].
  - split; [eexists; reflexivity|]. split; [|discriminate].
    intros _. repeat split. now exists (exn_str e).
  - split; [eexists; reflexivity|]. split; [discriminate|].
    intros _. repeat split; try reflexivity; eexists; reflexivity.
Qed.

(** A success comes from a softmax row of two to eight entries. *)
Lemma classify_audio_success_inv model_name audio_path (d : gmap string value) :
  result (classify_audio env model_name audio_path) = Return d ->
  d !! "success" = Some (VBool true) ->
  exists row k p label sc,
    produces env model_name audio_path row /\ 2 <= length row <= 8 /\
    d = success_result label p sc /\
    row !! k = Some p /\ labels !! k = Some label /\
    (forall j q, row !! j = Some q -> (p <? q)%float = false) /\
    (forall j q, row !! j = Some q -> j < k -> (q =? p)%float = false) /\
    (forall label' q, sc !! label' = Some q <->
                      exists j, labels !! j = Some label' /\ row !! j = Some q).
Proof.
  intros Hd Hs.
  destruct (fails_or_produces model_name audio_path) as [[e Hf]|[row Hp]].
  { destruct (classify_audio_fails_with _ _ _ Hf) as [_ Hrun].
    rewrite Hrun in Hd. injection Hd as <-. discriminate. }
  destruct (classify_audio_by_length _ _ _ Hp) as (H0 & H1 & H2 & H9).
  destruct (decide (length row = 0)) as [Hz|].
  { apply nil_length_inv in Hz. rewrite (H0 Hz) in Hd. injection Hd as <-. discriminate. }
  destruct (decide (length row = 1)) as [Ho|].
  { rewrite (H1 Ho) in Hd. injection Hd as <-. discriminate. }
  destruct (decide (length row <= 8)) as [H8|].
  - destruct H2 as (k & p & label & sc & Hrun & Hfacts); [lia|].
    rewrite Hrun in Hd. injection Hd as <-.
    exists row, k, p, label, sc. split; [exact Hp|]. split; [lia|]. split; [reflexivity|].
    exact Hfacts.
  - rewrite H9 in Hd by lia. injection Hd as <-. discriminate.
Qed.

Lemma produces_functional model_name audio_path row row' :
  produces env model_name audio_path row ->
  produces env model_name audio_path row' -> row = row'.
Proof.
  intros (m & pr & sp & sr & i & H1 & H2 & H3 & H4 & H5)
         (m' & pr' & sp' & sr' & i' & H1' & H2' & H3' & H4' & H5').
  rewrite H1 in H1'; injection H1' as <-. rewrite H2 in H2'; injection H2' as <-.
  rewrite H3 in H3'; injection H3' as <- <-. rewrite H4 in H4'; injection H4' as <-.
  rewrite H5 in H5'. now injection H5'.
Qed.

(** C2. When the stages of [classify_audio] give the probability vector
    [row] (numbers: no entry is a NaN) and the call succeeds, the emotion
    returned is the label of a position [k] of [row] and the confidence is
    the entry [p] at [k], where no entry of [row] exceeds [p] and every
    entry before [k] is smaller than [p]: the first position of the maximum.
    For the vector [0.1, 0.05, 0.05, 0.1, 0.5, 0.1, 0.05, 0.05] the call
    succeeds with emotion "happy", the label of position 4, and confidence
    0.5. *)
Theorem dominant_emotion_is_first_maximum model_name audio_path :
  (forall row d,
     produces env model_name audio_path row ->
     Forall (fun q => is_nan q = false) row ->
     result (classify_audio env model_name audio_path) = Return d ->
     d !! "success" = Some (VBool true) ->
     exists k p label,
       row !! k = Some p /\
       labels !! k = Some label /\ id2label !! str_of_nat k = Some label /\
       (forall j q, row !! j = Some q -> (q <=? p)%float = true) /\
       (forall j q, row !! j = Some q -> j < k -> (q <? p)%float = true) /\
       d !! "emotion" = Some (VStr label) /\
       d !! "confidence" = Some (VFloat p)) /\
  (produces env model_name audio_path example_row ->
   exists d,
     result (classify_audio env model_name audio_path) = Return d /\
     d !! "success" = Some (VBool true) /\
     d !! "emotion" = Some (VStr "happy") /\ id2label !! str_of_nat 4 = Some "happy" /\
     d !! "confidence" = Some (VFloat f0_5)).
Proof.
  split.
  - intros row d Hp Hnum Hd Hs.
    destruct (classify_audio_success_inv _ _ _ Hd Hs)
      as (row' & k & p & label & sc & Hp' & Hlen & -> & Hk & Hlabel & Hmax & Hfirst & _).
    rewrite <- (produces_functional _ _ _ _ Hp Hp') in *. clear Hp'.
    rewrite Forall_lookup in Hnum.
    exists k, p, label. repeat split; trivial.
    + rewrite id2label_labels; [exact Hlabel|].
      apply lookup_lt_Some in Hk. lia.
    + intros j q Hj. apply not_ltb_leb; eauto.
    + intros j q Hj Hlt. apply not_ltb_not_eqb_ltb; eauto.
      rewrite eqb_sym. eauto.
  - intros Hp. rewrite (classify_audio_produces _ _ _ Hp).
    eexists. split; [vm_compute; reflexivity|]. repeat split.
Qed.

(** C9. In every successful result of [classify_audio] the confidence is
    the value that [scores] holds under the returned emotion; no value of
    [scores] exceeds it, and, the values of [scores] being numbers (none is
    a NaN), every one of them is at most the confidence. *)
Theorem confidence_is_maximum_score model_name audio_path (d : gmap string value) :
  result (classify_audio env model_name audio_path) = Return d ->
  d !! "success" = Some (VBool true) ->
  exists label p scores,
    d !! "emotion" = Some (VStr label) /\
    d !! "confidence" = Some (VFloat p) /\
    d !! "scores" = Some (VScores scores) /\
    scores !! label = Some p /\
    (forall l q, scores !! l = Some q -> (p <? q)%float = false) /\
    ((forall l q, scores !! l = Some q -> is_nan q = false) ->
     forall l q, scores !! l = Some q -> (q <=? p)%float = true).
Proof.
  intros Hd Hs.
  destruct (classify_audio_success_inv _ _ _ Hd Hs)
    as (row & k & p & label & sc & _ & _ & -> & Hk & Hlabel & Hmax & _ & Hsc).
  assert (Hp : sc !! label = Some p) by (apply Hsc; eauto).
  exists label, p, sc. repeat split; trivial.
  - intros l q Hq. apply Hsc in Hq as (j & _ & Hj). eauto.
  - intros Hnum l q Hq. apply not_ltb_leb; eauto.
    apply Hsc in Hq as (j & _ & Hj). eauto.
Qed.

(** C10 (amended). When the stages of [classify_audio] give a softmax row
    of more than 8 entries, the call returns the failure result of the
    [KeyError] of key "8", whose [error] is the key between quotes. When the
    row has from 2 to 8 entries the call returns a success whose [scores]
    has exactly the labels of these positions: as many as the row has
    entries. A row of one entry ([squeeze] leaves a bare float) or of none
    gives a failure result, of a [TypeError] and of a [ValueError]. *)
Theorem softmax_length_decides_result model_name audio_path row :
  produces env model_name audio_path row ->
  let r := result (classify_audio env model_name audio_path) in
  (8 < length row ->
     r = Return (error_result (KeyError "8")) /\
     error_result (KeyError "8") !! "success" = Some (VBool false) /\
     error_result (KeyError "8") !! "error" = Some (VStr "'8'")) /\
  (2 <= length row <= 8 ->
     exists label p sc,
       r = Return (success_result label p sc) /\
       size sc = length row /\
       forall l, is_Some (sc !! l) <-> l ∈ take (length row) labels) /\
  (length row = 1 ->
     exists e, r = Return (error_result e) /\ exn_class e = "TypeError") /\
  (length row = 0 ->
     exists e, r = Return (error_result e) /\ exn_class e = "ValueError").
Proof.
  intros Hp r. subst r.
  destruct (classify_audio_by_length _ _ _ Hp) as (H0 & H1 & H2 & H9).
  split; [|split; [|split]].
  - intros Hlen. rewrite H9 by lia. repeat split.
  - intros Hlen. destruct (H2 Hlen) as (k & p & label & sc & Hrun & _ & _ & _ & _ & Hsc).
    exists label, p, sc. split; [exact Hrun|].
    assert (Hdom : forall l, is_Some (sc !! l) <-> l ∈ take (length row) labels).
    { intros l. rewrite list_elem_of_lookup. split.
      - intros [q Hq]. apply Hsc in Hq as (j & Hlj & Hj). exists j.
        rewrite lookup_take_lt; [exact Hlj | eapply lookup_lt_Some; eauto].
      - intros [j Hj].
        destruct (decide (j < length row)) as [Hlt|Hge].
        + rewrite lookup_take_lt in Hj by exact Hlt.
          destruct (lookup_lt_is_Some_2 row j Hlt) as [q Hq].
          exists q. apply Hsc. eauto.
        + rewrite lookup_take_ge in Hj by lia. discriminate. }
    split; [|exact Hdom].
    assert (Heq : dom sc = list_to_set (take (length row) labels)).
    { apply set_eq. intros l. rewrite elem_of_dom, elem_of_list_to_set. apply Hdom. }
    rewrite <- size_dom, Heq, size_list_to_set.
    + rewrite length_take. cbn. lia.
    + apply (sublist_NoDup _ labels labels_NoDup (sublist_take _ _)).
  - intros Ho. rewrite (H1 Ho). eexists. split; reflexivity.
  - intros Hz. rewrite H0 by now apply nil_length_inv. eexists. split; reflexivity.
Qed.

End Classifier.

(** The failure of C1 on a hub that cannot be reached. *)
Lemma unreachable_hub_gives_error_result :
  result (classify_audio (env_unreachable_hub hub_unreachable) "org/model" "clip.wav")
    = Return (error_result hub_unreachable) /\
  error_result hub_unreachable !! "error" = Some (VStr (exn_str hub_unreachable)).
Proof.
  destruct (failures_become_error_results
              (env_unreachable_hub hub_unreachable) "org/model" "clip.wav")
    as (_ & _ & Hf & _).
  destruct (Hf hub_unreachable) as (Hr & _ & He); [now left|].
  split; [exact Hr | exact He].
Defined.

(** C1 as stated fails, twice: an exception without a message is turned
    into a failure result whose [error] is the empty string; and a fault
    outside [classify_audio] that is not inside the [try] of the main block,
    an import that raises, leaves the process without any result object
    written. *)
Lemma empty_error_and_unguarded_imports :
  let env := env_undecodable no_backend in
  (fails_with env "org/model" "clip.wav" no_backend /\
   exists d, result (classify_audio env "org/model" "clip.wav") = Return d /\
             d !! "success" = Some (VBool false) /\
             d !! "error" = Some (VStr "")) /\
  (stdout (trace (script env (Raise no_torch) ["script.py"; "org/model"; "clip.wav"])) = [] /\
   result (script env (Raise no_torch) ["script.py"; "org/model"; "clip.wav"])
     = Raise no_torch).
Proof.
  cbv zeta. split; [split|split; reflexivity].
  - right. exists tt. split; [reflexivity|]. right. exists tt. split; [reflexivity|].
    now left.
  - eexists. split; [vm_compute; reflexivity|]. split; reflexivity.
Qed.

Lemma env_giving_produces (row : list float) (model_name audio_path : string) :
  produces (env_giving row) model_name audio_path row.
Proof. exists tt, tt, tt, 16000%Z, tt. repeat split. Qed.

(** The example of C2, run: both parts of the theorem at the example. *)
Lemma example_row_is_happy :
  let run := classify_audio (env_giving example_row) "org/model" "clip.wav" in
  (exists k p label,
     example_row !! k = Some p /\
     labels !! k = Some label /\ id2label !! str_of_nat k = Some label /\
     (forall j q, example_row !! j = Some q -> (q <=? p)%float = true) /\
     (forall j q, example_row !! j = Some q -> j < k -> (q <? p)%float = true) /\
     success_result "happy" f0_5 example_scores !! "emotion" = Some (VStr label) /\
     success_result "happy" f0_5 example_scores !! "confidence" = Some (VFloat p)) /\
  (exists d,
     result run = Return d /\
     d !! "success" = Some (VBool true) /\
     d !! "emotion" = Some (VStr "happy") /\ id2label !! str_of_nat 4 = Some "happy" /\
     d !! "confidence" = Some (VFloat f0_5)).
Proof.
  cbv zeta.
  pose proof (dominant_emotion_is_first_maximum
                (env_giving example_row) "org/model" "clip.wav") as [Hgen Hex].
  split.
  - apply Hgen.
    + apply env_giving_produces.
    + repeat constructor.
    + vm_compute. reflexivity.
    + reflexivity.
  - apply Hex, env_giving_produces.
Defined.

(** The example's result, for C9. *)
Lemma example_confidence_is_maximum_score :
  result (classify_audio (env_giving example_row) "org/model" "clip.wav")
    = Return (success_result "happy" f0_5 example_scores) /\
  exists label p scores,
    success_result "happy" f0_5 example_scores !! "emotion" = Some (VStr label) /\
    success_result "happy" f0_5 example_scores !! "confidence" = Some (VFloat p) /\
    success_result "happy" f0_5 example_scores !! "scores" = Some (VScores scores) /\
    scores !! label = Some p /\
    (forall l q, scores !! l = Some q -> (p <? q)%float = false) /\
    ((forall l q, scores !! l = Some q -> is_nan q = false) ->
     forall l q, scores !! l = Some q -> (q <=? p)%float = true).
Proof.
  assert (Hrun : result (classify_audio (env_giving example_row) "org/model" "clip.wav")
                 = Return (success_result "happy" f0_5 example_scores))
    by (vm_compute; reflexivity).
  split; [exact Hrun|].
  exact (confidence_is_maximum_score (env_giving example_row) "org/model" "clip.wav"
           _ Hrun eq_refl).
Defined.

(** A three-way head, for C10: three labels. *)
Lemma three_way_row_gives_three_labels :
  exists label p sc,
    result (classify_audio (env_giving three_way_row) "org/model" "clip.wav")
      = Return (success_result label p sc) /\
    size sc = 3 /\
    forall l, is_Some (sc !! l) <-> l ∈ ["angry"; "calm"; "disgust"].
Proof.
  refine (proj1 (proj2 (softmax_length_decides_result
                          (env_giving three_way_row) "org/model" "clip.wav"
                          three_way_row _)) _).
  - apply env_giving_produces.
  - cbn. lia.
Defined.

(** C10 as stated fails: a softmax row of one entry, fewer than 8, gives a
    failure result, not a success with one label. *)
Lemma single_entry_row_fails :
  let env := env_giving [1%float] in
  produces env "org/model" "clip.wav" [1%float] /\
  length [1%float] < 8 /\
  exists d, result (classify_audio env "org/model" "clip.wav") = Return d /\
            d !! "success" = Some (VBool false) /\
            d !! "error" = Some (VStr "object of type 'float' has no len()") /\
            d !! "scores" = None.
Proof.
  cbv zeta. split; [|split].
  - apply env_giving_produces.
  - cbn. lia.
  - eexists. split; [vm_compute; reflexivity|]. repeat split.
Qed.

End HuggingfaceEmotionProofs.

(* ===================================================================== *)
(** * test_custom_model.py: the layer *)
(* ===================================================================== *)

Module CompatibleAttentionProofs.
Import Py TestCustomModel.

(** C7. For every configuration ([use_scale], [score_mode]) and input shape,
    building a fresh layer succeeds; with [use_scale = false] the built layer
    has no trainable weight (and no weight at all), with [use_scale = true]
    it has exactly one trainable weight, a scalar (shape [()]) named "scale"
    whose initial value is 1.0, and the attribute [scale] is that weight. *)
Theorem build_allocates_scale_iff_use_scale
    (scale_on : bool) (mode : string) (input_shape : list (option nat)) :
  exists layer,
    build (init scale_on mode) input_shape = Return layer /\
    built layer = true /\
    use_scale layer = scale_on /\ score_mode layer = mode /\
    if scale_on then
      trainable_weights layer =
        [ {| w_name := "scale"; w_shape := []; w_trainable := true; w_value := 1%float |} ] /\
      weights layer = trainable_weights layer /\
      scale layer = head (weights layer)
    else
      trainable_weights layer = [] /\ weights layer = [] /\ scale layer = None.
Proof.
  destruct scale_on; eexists; (split; [reflexivity|]); cbn; repeat split; reflexivity.
Qed.

End CompatibleAttentionProofs.

(* ===================================================================== *)
(** * test_custom_model.py: the loader and prober *)
(* ===================================================================== *)

Module TestCustomModelProofs.
Import Py Py.Notations PyFacts TestCustomModel.

Lemma attempts_app (a b : list event) : attempts (a ++ b) = attempts a ++ attempts b.
Proof. apply omap_app. Qed.

Section Prober.
Context {Model Tensor Output : Type}.
Variable env : Env Model Tensor Output.


Lemma trace_ext {A} (c : call) (o : outcome A) : trace (ext c o) = [Ext c].
Proof. destruct o; reflexivity. Qed.

Lemma result_ext {A} (c : call) (o : outcome A) : result (ext c o) = o.
Proof. destruct o; reflexivity. Qed.

Lemma trace_print (l : line) : trace (print l) = [Out l].
Proof. reflexivity. Qed.

Lemma result_print (l : line) : result (print l) = Return tt.
Proof. reflexivity. Qed.

Lemma trace_ret {A} (a : A) : trace (ret (E:=event) a) = [].
Proof. reflexivity. Qed.

Lemma result_ret {A} (a : A) : result (ret (E:=event) a) = Return a.
Proof. reflexivity. Qed.

Lemma trace_lift {A} (o : outcome A) : trace (lift (E:=event) o) = [].
Proof. reflexivity. Qed.

Lemma result_lift {A} (o : outcome A) : result (lift (E:=event) o) = o.
Proof. reflexivity. Qed.

Create Rewrite HintDb run.

Hint Rewrite @trace_bind @result_bind @trace_try_except @result_try_except
  @trace_ext @result_ext trace_print result_print @trace_ret @result_ret
  @trace_lift @result_lift : run.

Ltac run := autorewrite with run; cbn [app].

(** An attempt invokes its combination once and never raises: it breaks when
    the body of its [try] returns and continues when it raises. *)
Lemma attempt_spec (m : method) (model : Model) (s : shape) (t : Tensor) :
  attempts (trace (attempt env m model s t)) = [(s, m)] /\
  result (attempt env m model s t) =
    match result (attempt_try env m model s t) with
    | Return _ => Return Break
    | Raise _ => Return Continue
    end.
Proof.
  unfold attempt, attempt_try; run.
  destruct (invoke env m model t) as [o|e]; run; [|auto].
  destruct (output_shape env o) as [sh|e]; run; [|auto].
  destruct (output_sample env o) as [sa|e]; run; auto.
Qed.

Lemma attempts_cons_out (l : line) (tr : list event) :
  attempts (Out l :: tr) = attempts tr.
Proof. reflexivity. Qed.

Lemma attempts_cons_randn (s : shape) (tr : list event) :
  attempts (Ext (Randn s) :: tr) = attempts tr.
Proof. reflexivity. Qed.

Lemma probe_loop_spec (model : Model) (shapes : list shape) :
  attempts (trace (probe_loop env model shapes)) =
    through_first (combination_succeeds env model) (candidates env shapes) /\
  result (probe_loop env model shapes) = Return tt.
Proof.
  induction shapes as [|s rest [IHa IHr]]; [split; reflexivity|].
  cbn [probe_loop candidates flat_map]. fold (candidates env rest). run.
  destruct (randn env s) as [t|e] eqn:Hrn; run;
    rewrite attempts_cons_out, attempts_cons_randn.
  - destruct (attempt_spec DirectCall model s t) as [Ha1 Hr1].
    destruct (attempt_spec PredictCall model s t) as [Ha2 Hr2].
    cbn [through_first]. unfold combination_succeeds at 1 2. cbn [fst snd].
    rewrite Hrn, Hr1.
    destruct (result (attempt_try env DirectCall model s t)) as [b|e1]; run.
    + rewrite !app_nil_r. split; [exact Ha1 | reflexivity].
    + rewrite Hr2.
      destruct (result (attempt_try env PredictCall model s t)) as [b|e2]; run.
      * rewrite !app_nil_r, attempts_app, Ha1, Ha2. split; reflexivity.
      * rewrite IHr, !attempts_app, Ha1, Ha2, IHa. split; reflexivity.
  - rewrite IHr. split; [exact IHa | reflexivity].
Qed.

(** Neither an attempt nor the probe loads anything. *)
Lemma attempt_loads (m : method) (model : Model) (s : shape) (t : Tensor) :
  loads (trace (attempt env m model s t)) = [].
Proof.
  unfold attempt, attempt_try; run.
  destruct (invoke env m model t) as [o|e]; run; [|reflexivity].
  destruct (output_shape env o) as [sh|e]; run; [|reflexivity].
  destruct (output_sample env o) as [sa|e]; run; reflexivity.
Qed.

Lemma loads_app (a b : list event) : loads (a ++ b) = loads a ++ loads b.
Proof. apply omap_app. Qed.

Lemma probe_loop_loads (model : Model) (shapes : list shape) :
  loads (trace (probe_loop env model shapes)) = [].
Proof.
  induction shapes as [|s rest IH]; [reflexivity|].
  cbn [probe_loop]. run.
  change (loads (Out ?l :: ?tr)) with (loads tr).
  pose proof (attempt_loads DirectCall model s) as H1.
  pose proof (attempt_loads PredictCall model s) as H2.
  destruct (randn env s) as [t|e]; run; [|exact IH].
  change (loads (Ext (Randn s) :: ?tr)) with (loads tr).
  destruct (attempt_spec DirectCall model s t) as [_ Hr1].
  destruct (attempt_spec PredictCall model s t) as [_ Hr2].
  rewrite Hr1.
  destruct (result (attempt_try env DirectCall model s t)); run.
  { now rewrite !loads_app, H1. }
  rewrite Hr2.
  destruct (result (attempt_try env PredictCall model s t)); run;
    now rewrite !loads_app, H1, H2, ?IH.
Qed.

(** The load prints no failure report and invokes nothing. *)
Lemma load_quiet :
  attempts (trace (load env)) = [] /\ failure_report (trace (load env)) = [].
Proof.
  unfold load; run.
  destruct (load_model env model_path [("Attention", CompatibleAttentionClass)]); run;
    [split; reflexivity|].
  destruct (load_model env model_path []); run; split; reflexivity.
Qed.

(** A run that reaches the probe: what it does before, and after. *)
Lemma test_model_reaches_probe (version : string) (model : Model) :
  reaches_probe env version model ->
  test_model env =
    (before_load env version ++ trace (load env) ++
     [Out L_architecture; Ext Summary; Out L_testing_dummy] ++
     trace (probe_loop env model test_shapes) ++ [Out L_rule; Out L_completed],
     Return tt).
Proof.
  intros [(Htf & Hex & Hk) [Hload Hsum]].
  rewrite (M_eta (test_model env)). unfold test_model. run.
  rewrite Htf; run. rewrite Hex; run. rewrite Hk; run. rewrite Hload; run.
  rewrite Hsum; run.
  destruct (probe_loop_spec model test_shapes) as [_ ->]; run.
  unfold before_load, before_check. cbn [app]. now rewrite ?app_nil_r.
Qed.

Abbreviation s1 := shape_mfcc_time.
Abbreviation s2 := shape_time_mfcc.

(** What it takes for the body of an attempt's [try] to reach its [break]:
    the call returns and the shape and the sample of its output print. *)
Lemma attempt_try_returns (m : method) (model : Model) (s : shape) (t : Tensor) :
  (exists b, result (attempt_try env m model s t) = Return b) <->
  exists o sh sa,
    invoke env m model t = Return o /\
    output_shape env o = Return sh /\ output_sample env o = Return sa.
Proof.
  unfold attempt_try; run.
  destruct (invoke env m model t) as [o|e]; run.
  2:{ split; [intros [b Hb]; discriminate | intros (o & sh & sa & Ho & _); discriminate]. }
  destruct (output_shape env o) as [sh|e] eqn:Hsh; run.
  2:{ split; [intros [b Hb]; discriminate|].
      intros (o' & sh & sa & [= <-] & Hsh' & _). congruence. }
  destruct (output_sample env o) as [sa|e] eqn:Hsa; run.
  2:{ split; [intros [b Hb]; discriminate|].
      intros (o' & sh' & sa & [= <-] & _ & Hsa'). congruence. }
  split; [intros _; exists o, sh, sa; auto | intros _; eauto].
Qed.

Lemma combination_succeeds_iff (model : Model) (c : shape * method) :
  combination_succeeds env model c = true <->
  exists t o sh sa,
    randn env c.1 = Return t /\ invoke env c.2 model t = Return o /\
    output_shape env o = Return sh /\ output_sample env o = Return sa.
Proof.
  unfold combination_succeeds.
  destruct (randn env c.1) as [t|e].
  2:{ split; [discriminate | intros (t & o & sh & sa & Hr & _); discriminate]. }
  pose proof (attempt_try_returns c.2 model c.1 t) as Hiff.
  destruct (result (attempt_try env c.2 model c.1 t)) as [b|e].
  - split; [intros _|reflexivity].
    destruct (proj1 Hiff) as (o & sh & sa & H); [eauto|]. exists t, o, sh, sa. auto.
  - split; [discriminate|].
    intros (t' & o & sh & sa & [= <-] & H).
    destruct (proj2 Hiff) as [b Hb]; [eauto|]. discriminate.
Qed.

(** C4 (amended). In a run that reaches the probe with a loaded model and a
    synthetic input for each shape, the combinations invoked are the fixed
    order [(1,40,174) direct; (1,40,174) predict; (1,174,40) direct;
    (1,174,40) predict] cut after its first combination that succeeds, where
    a combination succeeds when the body of its [try] reaches [break]: the
    call returns and the shape and the sample of its output print. Hence
    predict is invoked for a shape only after direct was invoked for that
    shape and did not succeed, nothing is invoked after a combination that
    succeeds, and when [(1,174,40)] by predict is the only combination that
    succeeds all four are invoked and the probe ends with that one. Where
    every output prints, a combination succeeds exactly when its call
    returns. *)
Theorem probe_follows_fixed_order_to_first_success
    (version : string) (model : Model) (t1 t2 : Tensor) :
  reaches_probe env version model ->
  randn env s1 = Return t1 ->
  randn env s2 = Return t2 ->
  let tried := attempts (trace (test_model env)) in
  let ok := combination_succeeds env model in
  tried = through_first ok probe_order /\
  (forall s, (s, PredictCall) ∈ tried ->
             (s, DirectCall) ∈ tried /\ ok (s, DirectCall) = false) /\
  (forall c before after, tried = before ++ c :: after -> ok c = true -> after = []) /\
  (ok (s1, DirectCall) = false -> ok (s1, PredictCall) = false ->
   ok (s2, DirectCall) = false -> ok (s2, PredictCall) = true ->
   tried = probe_order /\ last tried = Some (s2, PredictCall)) /\
  (forall c, ok c = true <->
     exists t o sh sa,
       randn env c.1 = Return t /\ invoke env c.2 model t = Return o /\
       output_shape env o = Return sh /\ output_sample env o = Return sa) /\
  ((forall o, (exists sh, output_shape env o = Return sh) /\
              (exists sa, output_sample env o = Return sa)) ->
   forall c, ok c = true <->
     exists t o, randn env c.1 = Return t /\ invoke env c.2 model t = Return o).
Proof.
  intros Hreach Hr1 Hr2 tried ok.
  assert (Hok : forall c, ok c = true <->
     exists t o sh sa,
       randn env c.1 = Return t /\ invoke env c.2 model t = Return o /\
       output_shape env o = Return sh /\ output_sample env o = Return sa)
    by (intros c; apply combination_succeeds_iff).
  assert (Hcall : (forall o, (exists sh, output_shape env o = Return sh) /\
                             (exists sa, output_sample env o = Return sa)) ->
     forall c, ok c = true <->
       exists t o, randn env c.1 = Return t /\ invoke env c.2 model t = Return o).
  { intros Hprints c. rewrite Hok. split.
    - intros (t & o & _ & _ & Hr & Hi & _). eauto.
    - intros (t & o & Hr & Hi). destruct (Hprints o) as [[sh Hsh] [sa Hsa]].
      exists t, o, sh, sa. auto. }
  assert (Htried : tried = through_first ok probe_order).
  { subst tried. rewrite (test_model_reaches_probe _ _ Hreach).
    cbn [trace fst]. rewrite !attempts_app.
    destruct load_quiet as [-> _].
    destruct (probe_loop_spec model test_shapes) as [-> _].
    unfold candidates, test_shapes. cbn [flat_map]. rewrite Hr1, Hr2.
    change (attempts (before_load env version)) with (@nil (shape * method)).
    change (attempts [Out L_architecture; Ext Summary; Out L_testing_dummy])
      with (@nil (shape * method)).
    change (attempts [Out L_rule; Out L_completed]) with (@nil (shape * method)).
    cbn [app]. now rewrite app_nil_r. }
  split; [exact Htried|].
  clearbody tried ok. subst tried. unfold probe_order. cbn [through_first].
  split; [|split; [|split; [|split; [exact Hok | exact Hcall]]]]; clear Hok Hcall.
  - intros s Hin.
    repeat match type of Hin with context [if ?b then _ else _] => destruct b eqn:? end;
      repeat (apply elem_of_cons in Hin as [Hin|Hin]; [injection Hin as ->|]);
      try discriminate; try (now apply elem_of_nil in Hin);
      try (split; [set_solver|assumption]).
  - intros c before after Heq Hc.
    repeat match type of Heq with context [if ?b then _ else _] => destruct b eqn:? end;
      repeat (destruct before as [|? before]; cbn in Heq; [|injection Heq as <- Heq]);
      try (injection Heq as <- <-); try congruence;
      try (now destruct before).
  - intros H1 H2 H3 H4. unfold shape in *. rewrite H1, H2, H3, H4.
    split; reflexivity.
Qed.

Lemma failure_report_app (a b : list event) :
  failure_report (a ++ b) = failure_report a ++ failure_report b.
Proof. unfold failure_report, printed. now rewrite omap_app, List.filter_app. Qed.

Lemma printed_app (a b : list event) : printed (a ++ b) = printed a ++ printed b.
Proof. apply omap_app. Qed.

(** A failed attempt: invoked once, reported once with its error, and the
    loop body goes on. *)
Lemma attempt_fails (m : method) (model : Model) (s : shape) (t : Tensor) (e : exn) :
  result (attempt_try env m model s t) = Raise e ->
  failure_report (trace (attempt env m model s t)) = [L_failed m (exn_str e)] /\
  result (attempt env m model s t) = Return Continue.
Proof.
  unfold attempt, attempt_try; run.
  destruct (invoke env m model t) as [o|e0]; run; [|intros [= ->]; run; now split].
  destruct (output_shape env o) as [sh|e0]; run; [|intros [= ->]; run; now split].
  destruct (output_sample env o) as [sa|e0]; run; [discriminate|].
  intros [= ->]; run; now split.
Qed.

(** C5 (amended). In a run that reaches the probe with a loaded model, if
    each of the four combinations fails (the body of its [try] raises [e1],
    [e2], [e3], [e4] in the fixed order), then all four are invoked, in that
    order, and the warnings printed as the attempts fail ([failure_report]:
    the lines that announce a shape or say that an attempt failed) name
    every combination with its own error: the shape [(1,40,174)], its
    direct-call error [e1], its predict-call error [e2], the shape
    [(1,174,40)], its direct-call error [e3], its predict-call error [e4].
    No outcome of the probe is reported beyond these: the run returns, its
    last lines being the rule and the completion line. *)
Theorem all_combinations_fail_reports_each_error
    (version : string) (model : Model) (e1 e2 e3 e4 : exn) :
  reaches_probe env version model ->
  combination_fails env model (s1, DirectCall) e1 ->
  combination_fails env model (s1, PredictCall) e2 ->
  combination_fails env model (s2, DirectCall) e3 ->
  combination_fails env model (s2, PredictCall) e4 ->
  attempts (trace (test_model env)) = probe_order /\
  failure_report (trace (test_model env)) =
    [L_testing_shape s1;
     L_failed DirectCall (exn_str e1); L_failed PredictCall (exn_str e2);
     L_testing_shape s2;
     L_failed DirectCall (exn_str e3); L_failed PredictCall (exn_str e4)] /\
  result (test_model env) = Return tt /\
  exists before, printed (trace (test_model env)) = before ++ [L_rule; L_completed].
Proof.
  intros Hreach (t1 & Hr1 & H1) (t1' & Hr1' & H2) (t2 & Hr2 & H3) (t2' & Hr2' & H4).
  cbn [fst snd] in *.
  rewrite Hr1 in Hr1'; injection Hr1' as <-.
  rewrite Hr2 in Hr2'; injection Hr2' as <-.
  rewrite (test_model_reaches_probe _ _ Hreach). cbn [trace result fst snd].
  repeat split.
  - rewrite !attempts_app. destruct load_quiet as [-> _].
    destruct (probe_loop_spec model test_shapes) as [-> _].
    unfold candidates, test_shapes. cbn [flat_map]. rewrite Hr1, Hr2.
    cbn [app through_first]. unfold combination_succeeds. cbn [fst snd].
    rewrite Hr1, Hr2, H1, H2, H3, H4. reflexivity.
  - rewrite !failure_report_app. destruct load_quiet as [_ ->].
    unfold test_shapes. cbn [probe_loop]. run. rewrite Hr1; run.
    destruct (attempt_fails _ _ _ _ _ H1) as [F1 R1].
    destruct (attempt_fails _ _ _ _ _ H2) as [F2 R2].
    destruct (attempt_fails _ _ _ _ _ H3) as [F3 R3].
    destruct (attempt_fails _ _ _ _ _ H4) as [F4 R4].
    rewrite R1; run. rewrite R2; run. rewrite Hr2; run. rewrite R3; run.
    rewrite R4; run.
    change (Out (L_testing_shape s1) :: Ext (Randn s1) :: ?tr)
      with ([Out (L_testing_shape s1); Ext (Randn s1)] ++ tr).
    rewrite !failure_report_app, F1, F2.
    change (Out (L_testing_shape s2) :: Ext (Randn s2) :: ?tr)
      with ([Out (L_testing_shape s2); Ext (Randn s2)] ++ tr).
    rewrite !failure_report_app, F3, F4. reflexivity.
  - rewrite !printed_app. eexists. rewrite !app_assoc. reflexivity.
Qed.

Ltac skip_loads :=
  repeat (change (loads (Out ?l :: ?tr)) with (loads tr)
          || change (loads (Ext ImportTensorflow :: ?tr)) with (loads tr)
          || change (loads (Ext (PathExists ?p) :: ?tr)) with (loads tr)
          || change (loads (Ext (GetSize ?p) :: ?tr)) with (loads tr)
          || change (loads (Ext ImportKeras :: ?tr)) with (loads tr)
          || change (loads (Ext Summary :: ?tr)) with (loads tr)
          || change (loads (Ext (LoadModel ?p ?c) :: ?tr)) with (c :: loads tr)).

(** C6. In a run that reaches the load, the first load is attempted with the
    [CompatibleAttention] substitution registered under "Attention"; it is
    the only load when it returns; when it raises, exactly one more load
    follows, without substitution; and when that one raises too, the run
    ends there, its last line being the failure report that carries the
    message of the second error ([e2]), the first error having only been
    shown in the warning that announced the retry. *)
Theorem load_retries_without_substitution_and_reports_second_cause (version : string) :
  reaches_load env version ->
  let custom := load_model env model_path attention_substitution in
  let standard := load_model env model_path [] in
  let run := test_model env in
  (exists more, loads (trace run) = attention_substitution :: more) /\
  (forall model, custom = Return model -> loads (trace run) = [attention_substitution]) /\
  (forall e, custom = Raise e -> loads (trace run) = [attention_substitution; []]) /\
  (forall e e2, custom = Raise e -> standard = Raise e2 ->
     run = (before_load env version ++
            [Ext (LoadModel model_path attention_substitution);
             Out (L_custom_load_failed (exn_str e));
             Out L_trying_standard;
             Ext (LoadModel model_path []);
             Out (L_standard_load_failed (exn_str e2))],
            Return tt) /\
     last (printed (trace run)) = Some (L_standard_load_failed (exn_str e2))).
Proof.
  intros (Htf & Hex & Hk) custom standard run0.
  assert (Hloads : loads (trace run0) =
                   attention_substitution ::
                   match custom with Return _ => [] | Raise _ => [[]] end).
  { subst run0. unfold test_model.
    rewrite trace_try_except, !trace_bind, !result_bind. run.
    rewrite Htf; run. rewrite Hex; run. rewrite Hk; run.
    unfold load. run. fold custom standard.
    destruct custom as [model|e]; run.
    - destruct (summary env model) as [[]|e]; run; [|reflexivity].
      destruct (probe_loop_spec model test_shapes) as [_ ->]; run.
      rewrite app_nil_r.
      skip_loads. now rewrite !loads_app, probe_loop_loads.
    - destruct standard as [model|e2]; run; [|reflexivity].
      destruct (summary env model) as [[]|e']; run; [|reflexivity].
      destruct (probe_loop_spec model test_shapes) as [_ ->]; run.
      rewrite app_nil_r.
      skip_loads. now rewrite !loads_app, probe_loop_loads. }
  split; [eauto|]. split; [|split].
  - intros model Hc. now rewrite Hloads, Hc.
  - intros e Hc. now rewrite Hloads, Hc.
  - intros e e2 Hc Hs.
    assert (Hrun : run0 = (before_load env version ++
            [Ext (LoadModel model_path attention_substitution);
             Out (L_custom_load_failed (exn_str e));
             Out L_trying_standard;
             Ext (LoadModel model_path []);
             Out (L_standard_load_failed (exn_str e2))],
            Return tt)).
    { subst run0. rewrite (M_eta (test_model env)). unfold test_model. run.
      rewrite Htf; run. rewrite Hex; run. rewrite Hk; run.
      unfold load. run. fold custom standard. rewrite Hc; run. rewrite Hs; run.
      reflexivity. }
    split; [exact Hrun|]. rewrite Hrun. reflexivity.
Qed.

(** C8 (amended). When the artifact path does not exist, no run attempts a
    load or invokes a combination; and when moreover tensorflow imports, the
    run consists of the tensorflow check and the existence check followed
    by the report that the model file was not found, after which it returns. *)
Theorem missing_artifact_reported_before_any_load :
  path_exists env model_path = false ->
  loads (trace (test_model env)) = [] /\
  attempts (trace (test_model env)) = [] /\
  forall version, import_tensorflow env = Return version ->
    test_model env =
      (before_check version ++ [Out (L_model_file_not_found model_path)], Return tt).
Proof.
  intros Hex. rewrite (M_eta (test_model env)). unfold test_model. run.
  rewrite Hex.
  destruct (import_tensorflow env) as [v|e]; run.
  - repeat split. intros version [= ->]. reflexivity.
  - repeat split. discriminate.
Qed.

End Prober.

(** The run of C4's particular case: only (1,174,40) by predict is accepted. *)
Lemma probe_only_time_mfcc_predict :
  attempts (trace (test_model (env_accepting only_time_mfcc_predict))) = probe_order /\
  last (attempts (trace (test_model (env_accepting only_time_mfcc_predict))))
    = Some (shape_time_mfcc, PredictCall).
Proof.
  refine (proj1 (proj2 (proj2 (proj2
    (probe_follows_fixed_order_to_first_success
       (env_accepting only_time_mfcc_predict) "2.15.0" attention_substitution
       shape_mfcc_time shape_time_mfcc _ eq_refl eq_refl)))) eq_refl eq_refl eq_refl eq_refl).
  repeat split; reflexivity.
Defined.

(** The run of C5 on an artifact that accepts nothing. *)
Lemma probe_nothing_accepted :
  failure_report (trace (test_model (env_accepting (fun _ _ => false)))) =
    [L_testing_shape shape_mfcc_time;
     L_failed DirectCall (exn_str shape_mismatch);
     L_failed PredictCall (exn_str shape_mismatch);
     L_testing_shape shape_time_mfcc;
     L_failed DirectCall (exn_str shape_mismatch);
     L_failed PredictCall (exn_str shape_mismatch)].
Proof.
  refine (proj1 (proj2
    (all_combinations_fail_reports_each_error
       (env_accepting (fun _ _ => false)) "2.15.0" attention_substitution
       shape_mismatch shape_mismatch shape_mismatch shape_mismatch _ _ _ _ _)));
    first [ by repeat split | by eexists; split ].
Defined.

(** C4 as stated fails: the direct call on (1,40,174) returns, and the run
    says so, yet taking the sample of its output raises inside the same
    [try]; [predict] is then invoked for that shape, although the direct
    call did not raise, and the probe does not stop at the first combination
    whose call succeeded. *)
Lemma predict_runs_after_direct_call_returned :
  let env := Scenarios.env_scalar_rows in
  invoke env DirectCall attention_substitution shape_mfcc_time = Return DirectCall /\
  attempts (trace (test_model env))
    = [(shape_mfcc_time, DirectCall); (shape_mfcc_time, PredictCall)] /\
  printed (trace (test_model env)) =
    [L_title; L_rule; L_checking_tensorflow; L_tensorflow_version "2.15.0";
     L_checking_model_file; L_model_file_found model_path; L_file_size 1048576;
     L_attempting_load; L_loaded_with_wrapper; L_architecture; L_testing_dummy;
     L_testing_shape shape_mfcc_time;
     L_succeeded DirectCall shape_mfcc_time; L_output_shape "(8,)";
     L_failed DirectCall (exn_str Scenarios.scalar_output);
     L_succeeded PredictCall shape_mfcc_time; L_output_shape "(1, 8)";
     L_output_sample "[0.1 0.1 0.2 0.1 0.5]"; L_rule; L_completed].
Proof. cbv zeta. repeat split. Qed.

(** C5 as stated fails: where all four combinations fail, the run prints a
    warning as each attempt fails and then ends with the rule and the
    completion line, as a run whose first combination succeeds does; no line
    reports a failed probe as the outcome of the run. *)
Lemma all_fail_run_ends_as_completed :
  let env := env_accepting (fun _ _ => false) in
  (forall c, c ∈ probe_order ->
     combination_fails env attention_substitution c shape_mismatch) /\
  printed (trace (test_model env)) =
    [L_title; L_rule; L_checking_tensorflow; L_tensorflow_version "2.15.0";
     L_checking_model_file; L_model_file_found model_path; L_file_size 1048576;
     L_attempting_load; L_loaded_with_wrapper; L_architecture; L_testing_dummy;
     L_testing_shape shape_mfcc_time;
     L_failed DirectCall (exn_str shape_mismatch);
     L_failed PredictCall (exn_str shape_mismatch);
     L_testing_shape shape_time_mfcc;
     L_failed DirectCall (exn_str shape_mismatch);
     L_failed PredictCall (exn_str shape_mismatch);
     L_rule; L_completed] /\
  result (test_model env) = Return tt /\
  last (printed (trace (test_model env)))
    = last (printed (trace (test_model (env_accepting (fun _ _ => true))))).
Proof.
  cbv zeta. split; [|repeat split].
  intros c Hc. unfold probe_order in Hc.
  repeat (apply elem_of_cons in Hc as [->|Hc]; [by eexists; split|]).
  by apply elem_of_nil in Hc.
Qed.

(** The run of C6 on an artifact neither load reads. *)
Lemma load_unloadable_reports_second_cause :
  loads (trace (test_model env_unloadable)) = [attention_substitution; []] /\
  last (printed (trace (test_model env_unloadable)))
    = Some (L_standard_load_failed (exn_str unknown_layer)).
Proof.
  pose proof (load_retries_without_substitution_and_reports_second_cause
                env_unloadable "2.15.0") as H.
  destruct H as (_ & _ & Hretry & Hboth); [by repeat split|].
  split.
  - exact (Hretry bad_config eq_refl).
  - exact (proj2 (Hboth bad_config unknown_layer eq_refl eq_refl)).
Defined.

(** The run of C8 where tensorflow is installed and the artifact is missing. *)
Lemma missing_artifact_run :
  printed (trace (test_model (env_missing (Return "2.15.0")))) =
    [L_title; L_rule; L_checking_tensorflow; L_tensorflow_version "2.15.0";
     L_checking_model_file; L_model_file_not_found model_path] /\
  loads (trace (test_model (env_missing (Return "2.15.0")))) = [].
Proof.
  destruct (missing_artifact_reported_before_any_load
              (env_missing (Return "2.15.0")) eq_refl) as (Hl & _ & Hrun).
  split; [|exact Hl].
  rewrite (Hrun "2.15.0" eq_refl). reflexivity.
Defined.

(** C8 as stated fails: where tensorflow does not import, the artifact path
    that does not exist is never looked at, and the run reports the failed
    import instead of the missing model file. *)
Lemma missing_artifact_unreported_without_tensorflow :
  let run := test_model (env_missing (Raise no_tensorflow)) in
  path_exists (env_missing (Raise no_tensorflow)) model_path = false /\
  printed (trace run) =
    [L_title; L_rule; L_checking_tensorflow; L_test_failed (exn_str no_tensorflow)] /\
  (L_model_file_not_found model_path ∉ printed (trace run)) /\
  (Ext (PathExists model_path) ∉ trace run).
Proof.
  cbv zeta. split; [reflexivity|]. split; [reflexivity|]. split.
  - change (printed _) with
      [L_title; L_rule; L_checking_tensorflow; L_test_failed (exn_str no_tensorflow)].
    intros H. repeat (apply elem_of_cons in H as [H|H]; [discriminate|]).
    by apply elem_of_nil in H.
  - change (trace _) with
      [Out L_title; Out L_rule; Out L_checking_tensorflow; Ext ImportTensorflow;
       Out (L_test_failed (exn_str no_tensorflow)); Ext PrintExc].
    intros H. repeat (apply elem_of_cons in H as [H|H]; [discriminate|]).
    by apply elem_of_nil in H.
Qed.

End TestCustomModelProofs.

(* ===================================================================== *)
(** * huggingface_emotion.py: further properties *)
(* ===================================================================== *)

Module HuggingfaceEmotionMore.
Import Py Py.Notations PyFacts HuggingfaceEmotion HuggingfaceEmotionProofs Scenarios.

(** ** NaN and [max] *)

Lemma SFcompare_lt_numbers (a b : spec_float) :
  SFcompare a b = Some Lt -> SFcompare a a = Some Eq /\ SFcompare b b = Some Eq.
Proof.
  sf_cases a; sf_cases b; cbn; try discriminate; intros _;
    change (Pos.compare_cont Eq ?x ?y) with (Pos.compare x y);
    rewrite ?Z.compare_refl, ?Pos.compare_refl; auto.
Qed.

Lemma ltb_numbers (a b : float) :
  (a <? b)%float = true -> is_nan a = false /\ is_nan b = false.
Proof. rewrite ltb_true, !not_nan. apply SFcompare_lt_numbers. Qed.

(** [max] gives a NaN exactly when it starts from one, and then gives that
    first item itself. *)
Lemma max_loop_nan (rest : list pyfloat) (cur : pyfloat) :
  is_nan (fval (max_loop cur rest)) = is_nan (fval cur) /\
  (is_nan (fval cur) = true -> max_loop cur rest = cur).
Proof.
  revert cur. induction rest as [|item rest IH]; intros cur; [split; reflexivity|].
  cbn [max_loop]. unfold py_gt.
  destruct (fval cur <? fval item)%float eqn:Hlt.
  - apply ltb_numbers in Hlt as [Hc Hi].
    destruct (IH item) as [IH1 _]. rewrite IH1, Hi, Hc. split; [reflexivity|discriminate].
  - apply IH.
Qed.

(** What a returned result says of [max] and [index]. *)
Lemma result_of_probs_inv (l : list pyfloat) (d : gmap string value) :
  result (result_of_probs (PyList l)) = Return d ->
  exists m k label sc,
    py_max l = Return m /\ py_index l m = Return k /\
    id2label !! str_of_nat k = Some label /\
    d = success_result label (fval m) sc.
Proof.
  unfold result_of_probs. cbn [py_len py_max_of py_index_of].
  rewrite bind_lift_return, result_bind.
  destruct (result (scores_loop (PyList l) (seq 0 (length l)) ∅)) as [sc|]; [|discriminate].
  destruct (py_max l) as [m|] eqn:Hm; [|discriminate].
  rewrite bind_lift_return.
  destruct (py_index l m) as [k|] eqn:Hk; [|discriminate].
  rewrite bind_lift_return. unfold getitem.
  destruct (id2label !! str_of_nat k) as [label|] eqn:Hl; [|discriminate].
  rewrite !bind_lift_return. cbn. intros [= <-].
  exists m, k, label, sc. auto.
Qed.

Section Classifier.
Context {Model Extractor Waveform Inputs : Type}.
Variable env : Env Model Extractor Waveform Inputs.
Implicit Types (model_name audio_path : string) (row : list float).

(** X2. [classify_audio] returns a success exactly when loading, decoding
    and inference all return and the softmax row has from 2 to 8 entries. *)
Theorem classify_audio_succeeds_iff model_name audio_path :
  (exists d, result (classify_audio env model_name audio_path) = Return d /\
             d !! "success" = Some (VBool true)) <->
  (exists row, produces env model_name audio_path row /\ 2 <= length row <= 8).
Proof.
  split.
  - intros (d & Hd & Hs).
    destruct (classify_audio_success_inv env _ _ _ Hd Hs) as (row & _ & _ & _ & _ & Hp & Hlen & _).
    eauto.
  - intros (row & Hp & Hlen).
    destruct (classify_audio_by_length env _ _ _ Hp) as (_ & _ & H2 & _).
    destruct (H2 Hlen) as (k & p & label & sc & Hrun & _).
    exists (success_result label p sc). split; [exact Hrun | reflexivity].
Qed.

(** X3. In a success, [scores] gives back every entry of the softmax row
    under the label of its position, and holds nothing else. *)
Theorem scores_hold_each_probability model_name audio_path row :
  produces env model_name audio_path row ->
  2 <= length row <= 8 ->
  exists label p sc,
    result (classify_audio env model_name audio_path) = Return (success_result label p sc) /\
    (forall j q, row !! j = Some q ->
       exists l, labels !! j = Some l /\ id2label !! str_of_nat j = Some l /\
                 sc !! l = Some q) /\
    (forall l q, sc !! l = Some q ->
       exists j, labels !! j = Some l /\ row !! j = Some q).
Proof.
  intros Hp Hlen.
  destruct (classify_audio_by_length env _ _ _ Hp) as (_ & _ & H2 & _).
  destruct (H2 Hlen) as (k & p & label & sc & Hrun & _ & _ & _ & _ & Hsc).
  exists label, p, sc. split; [exact Hrun|]. split.
  - intros j q Hj.
    assert (Hj8 : j < 8) by (apply lookup_lt_Some in Hj; lia).
    destruct (lookup_lt_is_Some_2 labels j) as [l Hl]; [cbn; lia|].
    exists l. split; [exact Hl|]. split; [rewrite id2label_labels by lia; exact Hl|].
    apply Hsc. eauto.
  - intros l q Hq. now apply Hsc.
Qed.

(** X4. In a success the confidence is a NaN exactly when the first entry
    of the softmax row is one, and the emotion is then "angry", the label
    of position 0: [max] never moves off a NaN and never onto one. *)
Theorem confidence_nan_iff_first_entry_nan model_name audio_path row
    (d : gmap string value) :
  produces env model_name audio_path row ->
  result (classify_audio env model_name audio_path) = Return d ->
  d !! "success" = Some (VBool true) ->
  exists first p,
    row !! 0 = Some first /\
    d !! "confidence" = Some (VFloat p) /\
    is_nan p = is_nan first /\
    (is_nan first = true -> d !! "emotion" = Some (VStr "angry")).
Proof.
  intros Hp Hd Hs.
  rewrite (classify_audio_produces env _ _ _ Hp) in Hd. cbn [result snd] in Hd.
  destruct row as [|x rest].
  { injection Hd as <-. discriminate. }
  destruct rest as [|y rest].
  { injection Hd as <-. discriminate. }
  change (squeeze_tolist (x :: y :: rest))
    with (PyList (imap mk_pyfloat (x :: y :: rest))) in Hd.
  destruct (result (result_of_probs _)) as [d'|e] eqn:Hrun;
    [|injection Hd as <-; discriminate].
  injection Hd as ->.
  apply result_of_probs_inv in Hrun as (m & k & label & sc & Hm & Hk & Hl & ->).
  assert (Hm' : max_loop (mk_pyfloat 0 x) (imap (mk_pyfloat ∘ S) (y :: rest)) = m)
    by (injection Hm; auto).
  clear Hm.
  destruct (max_loop_nan (imap (mk_pyfloat ∘ S) (y :: rest)) (mk_pyfloat 0 x))
    as [Hnan Hstay].
  rewrite Hm' in Hnan, Hstay. cbn [fval] in Hnan, Hstay.
  exists x, (fval m). repeat split; trivial.
  intros Hx. rewrite (Hstay Hx) in Hk.
  cbn in Hk. injection Hk as <-.
  vm_compute in Hl. injection Hl as <-. reflexivity.
Qed.

(** X5. The dict [classify_audio] returns has exactly the keys [success]
    and [error], or exactly the keys [success], [emotion], [confidence],
    [scores] and [model], the last being "huggingface-prithiv": a failure
    carries no [model]. *)
Theorem classify_audio_result_keys model_name audio_path :
  exists d,
    result (classify_audio env model_name audio_path) = Return d /\
    ((dom d = {[ "success"; "error" ]} /\ d !! "success" = Some (VBool false)) \/
     (dom d = {[ "success"; "emotion"; "confidence"; "scores"; "model" ]} /\
      d !! "success" = Some (VBool true) /\
      d !! "model" = Some (VStr "huggingface-prithiv"))).
Proof.
  destruct (classify_audio_total env model_name audio_path) as (d & Hrun & Hshape).
  exists d. rewrite Hrun. split; [reflexivity|].
  destruct Hshape as [[e ->]|(label & p & sc & ->)]; [left|right].
  - split; [|reflexivity]. unfold error_result.
    rewrite dom_insert_L, dom_singleton_L. reflexivity.
  - split; [|split; reflexivity]. unfold success_result.
    rewrite !dom_insert_L, dom_singleton_L. set_solver.
Qed.

(** X6. Run with a model identifier and an audio path as its first two
    arguments, the program writes the notice on standard error, then, on
    standard output, the dict that [classify_audio] returns for these two,
    and returns; further arguments change nothing. *)
Theorem main_prints_what_classify_audio_returns
    (argv : list string) model_name audio_path :
  argv !! 1 = Some model_name ->
  argv !! 2 = Some audio_path ->
  exists d,
    result (classify_audio env model_name audio_path) = Return d /\
    main env argv = ([loading_line model_name; Stdout d], Return tt) /\
    forall more, main env (take 3 argv ++ more) = main env argv.
Proof.
  intros H1 H2.
  pose proof (main_spec env argv) as Hm. rewrite H1, H2 in Hm.
  destruct Hm as (d & Hd & Hrun). exists d. split; [exact Hd|]. split; [exact Hrun|].
  intros more. pose proof (main_spec env (take 3 argv ++ more)) as Hm'.
  assert (Hlen : 3 <= length argv) by (apply lookup_lt_Some in H2; lia).
  rewrite !lookup_app_l, !lookup_take_lt, H1, H2 in Hm'
    by (rewrite ?length_take; lia).
  destruct Hm' as (d' & Hd' & ->). rewrite Hrun. congruence.
Qed.

End Classifier.

(** X3 on a three-way head. *)
Lemma three_way_scores_hold_each_probability :
  exists label p sc,
    result (classify_audio (env_giving three_way_row) "org/model" "clip.wav")
      = Return (success_result label p sc) /\
    (forall j q, three_way_row !! j = Some q ->
       exists l, labels !! j = Some l /\ id2label !! str_of_nat j = Some l /\
                 sc !! l = Some q) /\
    (forall l q, sc !! l = Some q ->
       exists j, labels !! j = Some l /\ three_way_row !! j = Some q).
Proof.
  apply (scores_hold_each_probability (env_giving three_way_row)).
  - apply env_giving_produces.
  - cbn. lia.
Defined.

(** X4 on a row that starts with a NaN. *)
Lemma nan_first_row_is_angry :
  exists first p,
    nan_first_row !! 0 = Some first /\
    success_result "angry" nan
      {[ "angry" := nan; "calm" := 0.5%float; "disgust" := 0.25%float ]}
      !! "confidence" = Some (VFloat p) /\
    is_nan p = is_nan first /\
    (is_nan first = true ->
     success_result "angry" nan
       {[ "angry" := nan; "calm" := 0.5%float; "disgust" := 0.25%float ]}
       !! "emotion" = Some (VStr "angry")).
Proof.
  apply (confidence_nan_iff_first_entry_nan (env_giving nan_first_row)
           "org/model" "clip.wav" nan_first_row).
  - apply env_giving_produces.
  - vm_compute. reflexivity.
  - reflexivity.
Defined.

(** X6 on a command line with one argument too many. *)
Lemma main_ignores_further_arguments :
  exists d,
    result (classify_audio (env_giving three_way_row) "org/model" "clip.wav") = Return d /\
    main (env_giving three_way_row) ["script.py"; "org/model"; "clip.wav"; "extra"]
      = ([loading_line "org/model"; Stdout d], Return tt) /\
    forall more,
      main (env_giving three_way_row)
           (take 3 ["script.py"; "org/model"; "clip.wav"; "extra"] ++ more)
      = main (env_giving three_way_row) ["script.py"; "org/model"; "clip.wav"; "extra"].
Proof.
  apply (main_prints_what_classify_audio_returns (env_giving three_way_row)
           ["script.py"; "org/model"; "clip.wav"; "extra"] "org/model" "clip.wav");
    reflexivity.
Defined.

End HuggingfaceEmotionMore.

(* ===================================================================== *)
(** * test_custom_model.py: further properties of the layer *)
(* ===================================================================== *)

Module AttentionLayerProofs.
Import Py TestCustomModel AttentionLayer.

Lemma init_kwargs_get_config (base_config : gmap string cfg) (self : CompatibleAttention) :
  init_kwargs (get_config base_config self)
  = delete "score_mode" (delete "use_scale" base_config).
Proof.
  unfold init_kwargs, get_config. apply map_eq. intros k.
  destruct (decide (k = "score_mode")) as [->|Hs]; [now rewrite !lookup_delete_eq|].
  rewrite !(lookup_delete_ne _ "score_mode") by congruence.
  destruct (decide (k = "use_scale")) as [->|Hu]; [now rewrite !lookup_delete_eq|].
  now rewrite !lookup_delete_ne, !lookup_insert_ne by congruence.
Qed.

(** X7. A layer's config holds its [use_scale] and [score_mode], over
    whatever the base config says for these keys, and every other entry of
    the base config unchanged; these other entries are the keyword
    arguments handed to [Layer.__init__] when a layer is made from the
    config. Where [Layer.__init__] accepts them, that gives a fresh layer
    (not built, without weights) of the same [use_scale] and [score_mode],
    whose own config is the same again; where it raises, making the layer
    raises that error. *)
Theorem config_round_trip (layer_init : gmap string cfg -> option exn)
    (base_config : gmap string cfg) (self : CompatibleAttention) :
  let config := get_config base_config self in
  let kwargs := delete "score_mode" (delete "use_scale" base_config) in
  config !! "use_scale" = Some (CBool (use_scale self)) /\
  config !! "score_mode" = Some (CStr (score_mode self)) /\
  (forall k, k <> "use_scale" -> k <> "score_mode" -> config !! k = base_config !! k) /\
  init_kwargs config = kwargs /\
  (layer_init kwargs = None ->
     from_config layer_init config = Return (Some (init (use_scale self) (score_mode self))) /\
     get_config base_config (init (use_scale self) (score_mode self)) = config) /\
  (forall e, layer_init kwargs = Some e -> from_config layer_init config = Raise e).
Proof.
  cbv zeta.
  assert (H1 : get_config base_config self !! "use_scale" = Some (CBool (use_scale self))).
  { unfold get_config. rewrite lookup_insert_ne by discriminate. apply lookup_insert_eq. }
  assert (H2 : get_config base_config self !! "score_mode" = Some (CStr (score_mode self)))
    by apply lookup_insert_eq.
  split; [exact H1|]. split; [exact H2|]. split; [|split; [|split]].
  - intros k Hu Hs. unfold get_config. now rewrite !lookup_insert_ne by congruence.
  - apply init_kwargs_get_config.
  - intros Hacc. split; [|reflexivity].
    unfold from_config. now rewrite init_kwargs_get_config, Hacc, H1, H2.
  - intros e Hrej. unfold from_config. now rewrite init_kwargs_get_config, Hrej.
Qed.

(** X7 with the [Layer.__init__] of Keras 2: the base config of a layer
    round-trips, one with a keyword it does not understand raises. *)
Lemma config_round_trip_keras2 :
  from_config keras2_layer_init
    (get_config base_config_example (Layer_build (init true "dot") []))
    = Return (Some (init true "dot")) /\
  from_config keras2_layer_init
    (get_config (<["units" := CNone]> base_config_example) (init true "dot"))
    = Raise (TypeError "Keyword argument not understood").
Proof.
  split.
  - apply (config_round_trip keras2_layer_init base_config_example
             (Layer_build (init true "dot") [])).
    vm_compute. reflexivity.
  - apply (config_round_trip keras2_layer_init (<["units" := CNone]> base_config_example)
             (init true "dot")).
    vm_compute. reflexivity.
Defined.

(** ** [call] on shapes *)

Lemma broadcast_rev_same (l : list nat) : broadcast_rev l l = Some l.
Proof.
  induction l as [|x l IH]; [reflexivity|].
  cbn. now rewrite Nat.eqb_refl, IH.
Qed.

Lemma broadcast_same (l : list nat) : broadcast l l = Some l.
Proof.
  unfold broadcast. rewrite broadcast_rev_same. cbn.
  now rewrite reverse_involutive.
Qed.

Lemma as_matrices_app (batch : list nat) (rows cols : nat) :
  as_matrices (batch ++ [rows; cols]) = Some (batch, rows, cols).
Proof.
  unfold as_matrices. rewrite reverse_app.
  change (reverse [rows; cols]) with [cols; rows]. cbn [app].
  now rewrite reverse_involutive.
Qed.

Lemma tf_matmul_same_batch (batch : list nat) (m k n : nat) (transpose_b : bool) :
  tf_matmul (batch ++ [m; k]) (batch ++ (if transpose_b then [n; k] else [k; n])) transpose_b
  = Return (batch ++ [m; n]).
Proof.
  unfold tf_matmul. rewrite as_matrices_app.
  destruct transpose_b; rewrite as_matrices_app, Nat.eqb_refl, broadcast_same; reflexivity.
Qed.

Lemma tf_matmul_mismatch (batch : list nat) (m k n k' : nat) :
  k <> k' ->
  exists e, tf_matmul (batch ++ [m; k]) (batch ++ [n; k']) true = Raise e.
Proof.
  intros Hk. unfold tf_matmul. rewrite !as_matrices_app.
  apply Nat.eqb_neq in Hk. rewrite Hk. eauto.
Qed.

(** The steps of [call] after the choice of query and value. *)
Lemma call_on (self : CompatibleAttention) (batch : list nat) (t t' f : nat) :
  (use_scale self = true -> is_Some (scale self)) ->
  let query := batch ++ [t; f] in
  let value := batch ++ [t'; f] in
  outcome_bind (tf_matmul query value true) (fun scores =>
    outcome_bind (last_dim query) (fun d_k =>
      let scores := scalar_op scores in
      outcome_bind
        (if use_scale self then
           match scale self with
           | Some _ => Return (scalar_op scores)
           | None => Raise (AttributeError
                              "'CompatibleAttention' object has no attribute 'scale'")
           end
         else Return scores)
        (fun scores =>
           outcome_bind (tf_softmax_last scores) (fun attention_weights =>
             tf_matmul attention_weights value false))))
  = Return query.
Proof.
  intros Hscale. cbv zeta.
  rewrite (tf_matmul_same_batch batch t f t' true). cbn [outcome_bind].
  unfold last_dim. rewrite last_app. cbn [last outcome_bind]. unfold scalar_op.
  assert (Hsm : tf_softmax_last (batch ++ [t; t']) = Return (batch ++ [t; t']))
    by (destruct batch; reflexivity).
  destruct (use_scale self).
  - destruct (Hscale eq_refl) as [w ->]. cbn [outcome_bind]. rewrite Hsm.
    cbn [outcome_bind]. apply (tf_matmul_same_batch batch t t' f false).
  - cbn [outcome_bind]. rewrite Hsm.
    cbn [outcome_bind]. apply (tf_matmul_same_batch batch t t' f false).
Qed.

(** X8. On a layer that [build] has built, [call] on one tensor of shape
    [batch + (T, F)] returns a tensor of that very shape; on a list whose
    first two tensors are a query of shape [batch + (T, F)] and a value of
    shape [batch + (T', F)] it returns a tensor of the query's shape, and
    ignores the rest of the list. *)
Theorem call_keeps_query_shape
    (scale_on : bool) (mode : string) (input_shape : list (option nat))
    (self : CompatibleAttention) (batch : list nat) (t t' f : nat) :
  build (init scale_on mode) input_shape = Return self ->
  call self (Single (batch ++ [t; f])) = Return (batch ++ [t; f]) /\
  forall more,
    call self (Listed ((batch ++ [t; f]) :: (batch ++ [t'; f]) :: more))
    = Return (batch ++ [t; f]).
Proof.
  intros Hbuild.
  assert (Hscale : use_scale self = true -> is_Some (scale self)).
  { destruct scale_on; cbn in Hbuild; injection Hbuild as <-; cbn; eauto. discriminate. }
  split; [|intros more]; unfold call; cbn [list_get lookup list_lookup outcome_bind fst snd];
    apply call_on; exact Hscale.
Qed.

(** X9. [call] raises: an [IndexError] on a list of fewer than two
    tensors; an error of the first product when query and value differ in
    their last dimension; and, on a layer with [use_scale] that was never
    built, an [AttributeError] for the missing [scale], where the same call
    on the built layer returns. *)
Theorem call_errors (mode : string) (batch : list nat) (t t' f f' : nat) :
  (forall self ts, length ts < 2 ->
     call self (Listed ts) = Raise (IndexError "list index out of range")) /\
  (forall self, f <> f' ->
     exists e, call self (Listed [batch ++ [t; f]; batch ++ [t'; f']]) = Raise e) /\
  (exists e, call (init true mode) (Single (batch ++ [t; f])) = Raise e /\
             exn_class e = "AttributeError") /\
  (forall input_shape self, build (init true mode) input_shape = Return self ->
     call self (Single (batch ++ [t; f])) = Return (batch ++ [t; f])).
Proof.
  split; [|split; [|split]].
  - intros self ts Hlen. destruct ts as [|q [|v ts]]; try reflexivity. cbn in Hlen. lia.
  - intros self Hf. unfold call. cbn [list_get lookup list_lookup outcome_bind fst snd].
    destruct (tf_matmul_mismatch batch t f t' f' Hf) as [e ->]. eauto.
  - eexists. unfold call. cbn [outcome_bind fst snd].
    rewrite (tf_matmul_same_batch batch t f t true). cbn [outcome_bind].
    unfold last_dim. rewrite last_app. cbn. split; reflexivity.
  - intros input_shape self Hbuild. cbn in Hbuild. injection Hbuild as <-.
    unfold call. cbn [outcome_bind fst snd]. apply call_on. cbn. eauto.
Qed.

(** X8 on the layer of the saved model and a batch of one clip. *)
Lemma call_keeps_clip_shape :
  call (Layer_build (init false "dot") []) (Single ([1] ++ [174; 40]))
    = Return ([1] ++ [174; 40]) /\
  forall more,
    call (Layer_build (init false "dot") [])
         (Listed (([1] ++ [174; 40]) :: ([1] ++ [87; 40]) :: more))
    = Return ([1] ++ [174; 40]).
Proof.
  apply (call_keeps_query_shape false "dot" [] (Layer_build (init false "dot") [])
           [1] 174 87 40).
  reflexivity.
Defined.

End AttentionLayerProofs.

(* ===================================================================== *)
(** * test_custom_model.py: further properties of the run *)
(* ===================================================================== *)

Module TestCustomModelMore.
Import Py Py.Notations PyFacts TestCustomModel TestCustomModelProofs Scenarios.

Create Rewrite HintDb steps.

#[local] Hint Rewrite @trace_bind @result_bind @trace_try_except @result_try_except
  @trace_ext @result_ext trace_print result_print @trace_ret @result_ret
  @trace_lift @result_lift : steps.

Ltac steps := autorewrite with steps; cbn [app].

Lemma through_first_elem {A} (p : A -> bool) (l : list A) (x : A) :
  x ∈ through_first p l -> x ∈ l.
Proof.
  induction l as [|y l IH]; cbn; [trivial|].
  destruct (p y).
  - intros ->%list_elem_of_singleton. apply list_elem_of_here.
  - intros [->|H]%elem_of_cons; [apply list_elem_of_here|].
    apply list_elem_of_further, IH, H.
Qed.

Section Prober.
Context {Model Tensor Output : Type}.
Variable env : Env Model Tensor Output.

Lemma candidates_have_input (shapes : list shape) (c : shape * method) :
  c ∈ candidates env shapes -> exists t, randn env c.1 = Return t.
Proof.
  induction shapes as [|s rest IH]; cbn [candidates flat_map].
  { intros H. now apply elem_of_nil in H. }
  intros [H|H]%elem_of_app; [|apply IH, H].
  destruct (randn env s) as [t|e] eqn:Hr; [|now apply elem_of_nil in H].
  apply elem_of_cons in H as [->|H]; [now exists t|].
  apply list_elem_of_singleton in H as ->. now exists t.
Qed.

(** X11. In a run that reaches the probe, whether or not a synthetic input
    can be produced for each shape, the combinations invoked are the
    candidates (direct then predict for each shape that got its input, in
    the order of the shapes) cut after the first that succeeds; no
    combination is invoked for a shape whose input raised, and that failure
    is printed when it is that of the first shape. *)
Theorem probe_skips_shapes_without_input (version : string) (model : Model) :
  reaches_probe env version model ->
  attempts (trace (test_model env))
    = through_first (combination_succeeds env model) (candidates env test_shapes) /\
  (forall s m e, randn env s = Raise e -> (s, m) ∉ attempts (trace (test_model env))) /\
  (forall e, randn env shape_mfcc_time = Raise e ->
     L_testing_failed (exn_str e) ∈ printed (trace (test_model env))).
Proof.
  intros Hreach.
  assert (Hrun := test_model_reaches_probe env _ _ Hreach).
  assert (Ha : attempts (trace (test_model env))
               = through_first (combination_succeeds env model) (candidates env test_shapes)).
  { rewrite Hrun. cbn [trace fst]. rewrite !attempts_app.
    destruct (load_quiet env) as [-> _].
    destruct (probe_loop_spec env model test_shapes) as [-> _].
    change (attempts (before_load env version)) with (@nil (shape * method)).
    change (attempts [Out L_architecture; Ext Summary; Out L_testing_dummy])
      with (@nil (shape * method)).
    change (attempts [Out L_rule; Out L_completed]) with (@nil (shape * method)).
    cbn [app]. now rewrite app_nil_r. }
  split; [exact Ha|]. split.
  - intros s m e Hr Hin. rewrite Ha in Hin.
    apply through_first_elem, candidates_have_input in Hin as [t Ht].
    cbn in Ht. congruence.
  - intros e Hr. rewrite Hrun. cbn [trace fst]. rewrite !printed_app.
    apply elem_of_app. right. apply elem_of_app. right. apply elem_of_app. right.
    apply elem_of_app. left.
    unfold test_shapes. cbn [probe_loop]. steps. rewrite Hr. steps.
    change (printed (Out ?a :: Ext ?b :: Out ?c :: ?tr)) with (a :: c :: printed tr).
    apply list_elem_of_further, list_elem_of_here.
Qed.

(** X12. In a run that reaches the load and loads [model], if the summary
    of the model raises, the run reports that failure, prints the traceback
    and returns: no combination is invoked. *)
Theorem summary_failure_ends_the_run (version : string) (model : Model) (e : exn) :
  reaches_load env version ->
  result (load env) = Return (Some model) ->
  summary env model = Raise e ->
  test_model env =
    (before_load env version ++ trace (load env) ++
     [Out L_architecture; Ext Summary; Out (L_test_failed (exn_str e)); Ext PrintExc],
     Return tt) /\
  attempts (trace (test_model env)) = [].
Proof.
  intros (Htf & Hex & Hk) Hload Hsum.
  assert (Hrun : test_model env =
    (before_load env version ++ trace (load env) ++
     [Out L_architecture; Ext Summary; Out (L_test_failed (exn_str e)); Ext PrintExc],
     Return tt)).
  { rewrite (M_eta (test_model env)). unfold test_model. steps.
    rewrite Htf; steps. rewrite Hex; steps. rewrite Hk; steps. rewrite Hload; steps.
    rewrite Hsum; steps.
    unfold before_load, before_check. cbn [app]. now rewrite <- ?app_assoc. }
  split; [exact Hrun|]. rewrite Hrun. cbn [trace fst].
  rewrite !attempts_app. destruct (load_quiet env) as [-> _]. reflexivity.
Qed.

(** X13. When an import raises, the run reports it, prints the traceback
    and returns: for tensorflow, right after the first heading, the path not
    being looked at; for keras, once the file was found, no load being
    attempted. *)
Theorem import_failure_ends_the_run :
  (forall e, import_tensorflow env = Raise e ->
     test_model env =
       ([Out L_title; Out L_rule; Out L_checking_tensorflow; Ext ImportTensorflow;
         Out (L_test_failed (exn_str e)); Ext PrintExc], Return tt)) /\
  (forall version e,
     import_tensorflow env = Return version ->
     path_exists env model_path = true ->
     import_keras env = Raise e ->
     test_model env =
       (before_load env version ++ [Out (L_test_failed (exn_str e)); Ext PrintExc],
        Return tt) /\
     loads (trace (test_model env)) = []).
Proof.
  split.
  - intros e Htf. rewrite (M_eta (test_model env)). unfold test_model. steps.
    rewrite Htf; steps. reflexivity.
  - intros version e Htf Hex Hk.
    assert (Hrun : test_model env =
      (before_load env version ++ [Out (L_test_failed (exn_str e)); Ext PrintExc],
       Return tt)).
    { rewrite (M_eta (test_model env)). unfold test_model. steps.
      rewrite Htf; steps. rewrite Hex; steps. rewrite Hk; steps. reflexivity. }
    split; [exact Hrun|]. rewrite Hrun. reflexivity.
Qed.

(** X14. The success line of a combination is printed before its output is
    looked at: in a run that reaches the probe, if the direct call on
    (1,40,174) returns, its output shape prints and its sample raises [e],
    the run prints that the call succeeded, the output shape, then that the
    call failed with [e], and goes on to invoke [predict] on that shape. *)
Theorem success_line_precedes_output_inspection
    (version : string) (model : Model) (t : Tensor) (o : Output) (sh : string) (e : exn) :
  reaches_probe env version model ->
  randn env shape_mfcc_time = Return t ->
  invoke env DirectCall model t = Return o ->
  output_shape env o = Return sh ->
  output_sample env o = Raise e ->
  (exists after,
     trace (probe_loop env model test_shapes) =
       [Out (L_testing_shape shape_mfcc_time); Ext (Randn shape_mfcc_time);
        Ext (Invoke DirectCall shape_mfcc_time);
        Out (L_succeeded DirectCall shape_mfcc_time); Out (L_output_shape sh);
        Out (L_failed DirectCall (exn_str e));
        Ext (Invoke PredictCall shape_mfcc_time)] ++ after) /\
  (shape_mfcc_time, PredictCall) ∈ attempts (trace (test_model env)).
Proof.
  intros Hreach Hr Hinv Hsh Hsa.
  assert (Htr : exists after,
     trace (probe_loop env model test_shapes) =
       [Out (L_testing_shape shape_mfcc_time); Ext (Randn shape_mfcc_time);
        Ext (Invoke DirectCall shape_mfcc_time);
        Out (L_succeeded DirectCall shape_mfcc_time); Out (L_output_shape sh);
        Out (L_failed DirectCall (exn_str e));
        Ext (Invoke PredictCall shape_mfcc_time)] ++ after).
  { unfold test_shapes. cbn [probe_loop]. steps. rewrite Hr; steps.
    unfold attempt at 1 2 3. unfold attempt_try at 1 2 3. steps.
    rewrite Hinv; steps. rewrite Hsh; steps. rewrite Hsa; steps.
    unfold attempt at 1. unfold attempt_try at 1. steps.
    eexists. reflexivity. }
  split; [exact Htr|].
  destruct Htr as [after Htr].
  rewrite (test_model_reaches_probe env _ _ Hreach). cbn [trace fst].
  rewrite !attempts_app, Htr, attempts_app.
  apply elem_of_app. right. apply elem_of_app. right. apply elem_of_app. right.
  apply elem_of_app. left. apply elem_of_app. left.
  apply list_elem_of_further, list_elem_of_here.
Qed.

End Prober.

Lemma env_reaches_probe (env : Env (list (string * custom_class)) shape method)
    (version : string) :
  import_tensorflow env = Return version ->
  path_exists env model_path = true ->
  import_keras env = Return tt ->
  load_model env model_path attention_substitution = Return attention_substitution ->
  summary env attention_substitution = Return tt ->
  reaches_probe env version attention_substitution.
Proof.
  intros Htf Hex Hk Hl Hs. repeat split; trivial.
  unfold load. autorewrite with steps. now rewrite Hl.
Qed.

(** X11 where no input is produced for the first shape. *)
Lemma probe_skips_first_shape :
  attempts (trace (test_model env_no_first_input))
    = through_first (combination_succeeds env_no_first_input attention_substitution)
                    (candidates env_no_first_input test_shapes) /\
  (forall s m e, randn env_no_first_input s = Raise e ->
     (s, m) ∉ attempts (trace (test_model env_no_first_input))) /\
  (forall e, randn env_no_first_input shape_mfcc_time = Raise e ->
     L_testing_failed (exn_str e) ∈ printed (trace (test_model env_no_first_input))).
Proof.
  apply (probe_skips_shapes_without_input env_no_first_input "2.15.0").
  apply env_reaches_probe; reflexivity.
Defined.

(** X12 where the summary raises. *)
Lemma summary_failure_run :
  printed (trace (test_model (env_stage_failure (Return tt) (Raise summary_error)))) =
    [L_title; L_rule; L_checking_tensorflow; L_tensorflow_version "2.15.0";
     L_checking_model_file; L_model_file_found model_path; L_file_size 1048576;
     L_attempting_load; L_loaded_with_wrapper; L_architecture;
     L_test_failed (exn_str summary_error)] /\
  attempts (trace (test_model (env_stage_failure (Return tt) (Raise summary_error)))) = [].
Proof.
  destruct (summary_failure_ends_the_run
              (env_stage_failure (Return tt) (Raise summary_error))
              "2.15.0" attention_substitution summary_error) as [Hrun Ha];
    [by repeat split | reflexivity | reflexivity |].
  split; [|exact Ha]. rewrite Hrun. reflexivity.
Defined.

(** X13 where keras does not import. *)
Lemma keras_import_failure_run :
  printed (trace (test_model (env_stage_failure (Raise keras_import_error) (Return tt)))) =
    [L_title; L_rule; L_checking_tensorflow; L_tensorflow_version "2.15.0";
     L_checking_model_file; L_model_file_found model_path; L_file_size 1048576;
     L_attempting_load; L_test_failed (exn_str keras_import_error)] /\
  loads (trace (test_model (env_stage_failure (Raise keras_import_error) (Return tt)))) = [].
Proof.
  destruct (proj2 (import_failure_ends_the_run
                     (env_stage_failure (Raise keras_import_error) (Return tt)))
              "2.15.0" keras_import_error eq_refl eq_refl eq_refl) as [Hrun Hl].
  split; [|exact Hl]. rewrite Hrun. reflexivity.
Defined.

(** X14 where the direct call returns a vector. *)
Lemma scalar_rows_print_success_then_failure :
  (exists after,
     trace (probe_loop env_scalar_rows attention_substitution test_shapes) =
       [Out (L_testing_shape shape_mfcc_time); Ext (Randn shape_mfcc_time);
        Ext (Invoke DirectCall shape_mfcc_time);
        Out (L_succeeded DirectCall shape_mfcc_time); Out (L_output_shape "(8,)");
        Out (L_failed DirectCall (exn_str scalar_output));
        Ext (Invoke PredictCall shape_mfcc_time)] ++ after) /\
  (shape_mfcc_time, PredictCall) ∈ attempts (trace (test_model env_scalar_rows)).
Proof.
  apply (success_line_precedes_output_inspection env_scalar_rows "2.15.0"
           attention_substitution shape_mfcc_time DirectCall "(8,)" scalar_output);
    try reflexivity.
  apply env_reaches_probe; reflexivity.
Defined.

End TestCustomModelMore.
